(** * CodeRunner development server (serve.py)

    A shallow embedding of [src/CodeRunner/serve.py]: the launcher [main],
    the request handler class [Handler] and the pieces of Python's standard
    library they call ([posixpath], [http.server.SimpleHTTPRequestHandler],
    [socketserver.TCPServer] and [webbrowser] seen through their observable
    outcomes).

    Python [str] values are modelled as [string], the UTF-8 encoding of the
    text; every separator and keyword the program looks for is ASCII, so
    searching the encoded text finds exactly the occurrences Python finds. *)

From Stdlib Require Import String Ascii List ZArith Bool Lia.
From Stdlib Require Import DecimalString.
Import ListNotations.
Local Open Scope string_scope.
Local Open Scope Z_scope.

(** ** Python string operations *)

Module Str.

(** [s.startswith(p)] *)
Fixpoint startswith (s p : string) {struct p} : bool :=
  match p, s with
  | EmptyString, _ => true
  | String _ _, EmptyString => false
  | String a p', String b s' => Ascii.eqb a b && startswith s' p'
  end.

(** [s.endswith(p)] *)
Fixpoint endswith (s p : string) : bool :=
  String.eqb s p ||
  match s with
  | EmptyString => false
  | String _ s' => endswith s' p
  end.

(** [needle in hay] *)
Fixpoint contains (needle hay : string) : bool :=
  startswith hay needle ||
  match hay with
  | EmptyString => false
  | String _ hay' => contains needle hay'
  end.

(** [c in s] for a single character *)
Fixpoint has_char (c : ascii) (s : string) : bool :=
  match s with
  | EmptyString => false
  | String a s' => Ascii.eqb a c || has_char c s'
  end.

(** [s.split(c)] for a one-character separator: never the empty list. *)
Fixpoint split (c : ascii) (s : string) : list string :=
  match s with
  | EmptyString => [EmptyString]
  | String a s' =>
      if Ascii.eqb a c then EmptyString :: split c s'
      else match split c s' with
           | [] => [String a EmptyString]
           | w :: ws => String a w :: ws
           end
  end.

(** [s.split(c, 1)[0]]: the text before the first [c]. *)
Fixpoint before (c : ascii) (s : string) : string :=
  match s with
  | EmptyString => EmptyString
  | String a s' => if Ascii.eqb a c then EmptyString else String a (before c s')
  end.

(** [sep.join(l)] *)
Fixpoint join_with (sep : string) (l : list string) : string :=
  match l with
  | [] => EmptyString
  | [w] => w
  | w :: ws => w ++ sep ++ join_with sep ws
  end.

(** [s[: s.rfind(c) + 1]]: everything up to and including the last [c]. *)
Fixpoint upto_last (c : ascii) (s : string) : string :=
  match s with
  | EmptyString => EmptyString
  | String a s' => if has_char c s then String a (upto_last c s') else EmptyString
  end.

(** [s == c * len(s)] *)
Fixpoint all_char (c : ascii) (s : string) : bool :=
  match s with
  | EmptyString => true
  | String a s' => Ascii.eqb a c && all_char c s'
  end.

(** [s.rstrip(chars)], [strip] telling which characters are taken off. *)
Fixpoint rstrip_by (strip : ascii -> bool) (s : string) : string :=
  match s with
  | EmptyString => EmptyString
  | String a s' =>
      match rstrip_by strip s' with
      | EmptyString => if strip a then EmptyString else String a EmptyString
      | r => String a r
      end
  end.

Definition rstrip_char (c : ascii) : string -> string := rstrip_by (Ascii.eqb c).

(** The ASCII characters [str.isspace] accepts. (The path of a parsed
    request holds no whitespace of any kind: the request line was split on
    it.) *)
Definition isspace (a : ascii) : bool :=
  let n := N.to_nat (N_of_ascii a) in
  (Nat.eqb n 32 || (Nat.leb 9 n && Nat.leb n 13) || (Nat.leb 28 n && Nat.leb n 31))%bool.

(** [s.rstrip()] *)
Definition rstrip : string -> string := rstrip_by isspace.

(** [s.lower()] on ASCII letters *)
Definition lower_ascii (a : ascii) : ascii :=
  let n := N_of_ascii a in
  if (N.leb 65 n && N.leb n 90)%bool then ascii_of_N (n + 32) else a.

Fixpoint lower (s : string) : string :=
  match s with
  | EmptyString => EmptyString
  | String a s' => String (lower_ascii a) (lower s')
  end.

(** [str(n)] for an integer *)
Definition of_int (n : Z) : string := NilZero.string_of_int (Z.to_int n).

(** [str(n)] for a length *)
Definition of_nat (n : nat) : string := of_int (Z.of_nat n).

Definition nonempty (s : string) : bool := negb (String.eqb s EmptyString).

Definition slash : ascii := "/"%char.

(** [s[-1]], when there is one *)
Fixpoint last_char (s : string) : option ascii :=
  match s with
  | EmptyString => None
  | String a EmptyString => Some a
  | String _ s' => last_char s'
  end.

End Str.

(** ** posixpath *)

Module posixpath.

Definition sep : string := "/".

(** [isabs(s)] *)
Definition isabs (s : string) : bool := Str.startswith s sep.

(** [join(a, b)] with one component to add, the only way the program and
    the handler call it. *)
Definition join (a b : string) : string :=
  if Str.startswith b sep then b
  else if (negb (Str.nonempty a) || Str.endswith a sep)%bool then a ++ b
  else a ++ sep ++ b.

(** [dirname(p)] *)
Definition dirname (p : string) : string :=
  let head := Str.upto_last Str.slash p in
  if (Str.nonempty head && negb (Str.all_char Str.slash head))%bool
  then Str.rstrip_char Str.slash head
  else head.

(** The loop of [normpath] over the components, [new_comps] growing and
    shrinking at its end. *)
Fixpoint normpath_comps (initial_slashes : nat) (comps new_comps : list string)
  : list string :=
  match comps with
  | [] => new_comps
  | comp :: rest =>
      if (String.eqb comp "" || String.eqb comp ".")%bool
      then normpath_comps initial_slashes rest new_comps
      else if (negb (String.eqb comp "..")
               || (Nat.eqb initial_slashes 0 && Nat.eqb (List.length new_comps) 0)
               || (negb (Nat.eqb (List.length new_comps) 0)
                   && String.eqb (last new_comps "") ".."))%bool
      then normpath_comps initial_slashes rest (new_comps ++ [comp])
      else normpath_comps initial_slashes rest (removelast new_comps)
  end.

(** [sep * n] *)
Fixpoint seps (n : nat) : string :=
  match n with
  | O => ""
  | S n' => sep ++ seps n'
  end.

(** [normpath(path)] *)
Definition normpath (path : string) : string :=
  if String.eqb path "" then "."
  else
    let initial_slashes :=
      if Str.startswith path sep then
        if (Str.startswith path (seps 2) && negb (Str.startswith path (seps 3)))%bool
        then 2%nat else 1%nat
      else 0%nat in
    let comps := normpath_comps initial_slashes (Str.split Str.slash path) [] in
    let path := Str.join_with sep comps in
    let path := seps initial_slashes ++ path in
    if String.eqb path "" then "." else path.

(** [abspath(path)], [cwd] being what [os.getcwd()] answers. *)
Definition abspath (cwd path : string) : string :=
  if isabs path then normpath path else normpath (join cwd path).

End posixpath.

(** ** http.server.SimpleHTTPRequestHandler

    The class [Handler] of serve.py inherits every method but [__init__]
    from [SimpleHTTPRequestHandler]; the methods that answer a request are
    embedded here from CPython's [Lib/http/server.py]. *)

Module http.

(** A request as [parse_request] leaves it when it accepts the request
    line and the headers of an HTTP/1.0 or HTTP/1.1 request:
    [self.command], [self.path], [self.headers]. A request [parse_request]
    refuses is answered by it (400, 414, 431 or 505) and reaches no method
    embedded here. *)
Record request := mk_request {
  command : string;
  path : string;
  headers : list (string * string)
}.

(** What the handler writes to [self.wfile]: the status code, the headers
    passed to [send_header] (the [Server] and [Date] lines that
    [send_response] adds on its own are left out) and the body. *)
Record response := mk_response {
  status : Z;
  sent_headers : list (string * string);
  body : string
}.

Inductive tzinfo := tz_naive | tz_utc | tz_offset.

(** A [datetime]: its fields as seconds since the epoch, and its zone. *)
Record datetime := mk_datetime { dt_seconds : Z; dt_tz : tzinfo }.

(** An open file: the bytes [read] yields, the size ([fs[6]]) and the
    [st_mtime], in microseconds, that [os.fstat] reports, and the place the
    bytes live at: the path of the file the operating system opened, every
    symbolic link followed. The handler never asks for the last. *)
Record file := mk_file {
  content : string;
  st_size : Z;
  st_mtime_us : Z;
  realpath : string
}.

(** The operating system's answers about paths. [None] is an [OSError]. *)
Record FileSystem := mk_fs {
  isdir : string -> bool;
  isfile : string -> bool;
  open_rb : string -> option file;
  listdir : string -> option (list string)
}.

(** Text helpers of the standard library that the handler calls and that
    are not embedded: they only shape text. *)
Record Platform := mk_platform {
  unquote : string -> string;
  urlsplit_path : string -> string;
  redirect_url : string -> string;
  guess_type : string -> string;
  parsedate_to_datetime : string -> option datetime;
  date_time_string : Z -> string;
  repr : string -> string;
  error_page : Z -> string -> string;
  listing_page : string -> string -> list string -> string;
  getfilesystemencoding : string
}.

Definition NOT_FOUND : Z := 404.
Definition NOT_IMPLEMENTED : Z := 501.
Definition MOVED_PERMANENTLY : Z := 301.
Definition NOT_MODIFIED : Z := 304.
Definition OK : Z := 200.

Section Handler.

Variable P : Platform.
Variable fs : FileSystem.

(** [name in self.headers]: header names compare without case. *)
Definition has_header (hs : list (string * string)) (name : string) : bool :=
  existsb (fun kv => String.eqb (Str.lower (fst kv)) (Str.lower name)) hs.

(** [self.headers[name]] *)
Definition get_header (hs : list (string * string)) (name : string) : option string :=
  option_map snd
    (find (fun kv => String.eqb (Str.lower (fst kv)) (Str.lower name)) hs).

(** One step of the loop of [translate_path] over the words. *)
Definition translate_step (path word : string) : string :=
  if (Str.nonempty (posixpath.dirname word)
      || String.eqb word "." || String.eqb word "..")%bool
  then path
  else posixpath.join path word.

(** [translate_path(self, path)] with [self.directory = directory]. *)
Definition translate_path (directory path : string) : string :=
  let path := Str.before "?"%char path in
  let path := Str.before "#"%char path in
  let trailing_slash := Str.endswith (Str.rstrip path) "/" in
  let path := unquote P path in
  let path := posixpath.normpath path in
  let words := Str.split Str.slash path in
  let words := filter Str.nonempty words in
  let path := fold_left translate_step words directory in
  if trailing_slash then path ++ "/" else path.

(** [send_error(code, message)] for a request with command [cmd]. *)
Definition send_error (cmd : string) (code : Z) (message : string) : response :=
  if (200 <=? code) && negb ((code =? 204) || (code =? 205) || (code =? 304))
  then
    let b := error_page P code message in
    mk_response code
      [("Connection", "close");
       ("Content-Type", "text/html;charset=utf-8");
       ("Content-Length", Str.of_nat (String.length b))]
      (if String.eqb cmd "HEAD" then "" else b)
  else mk_response code [("Connection", "close")] "".

(** What [send_head] leaves behind: the response written so far, the file
    object it returns ([None] when the caller has nothing to copy), and the
    paths it handed to [open] or [os.listdir]. *)
Record head := mk_head {
  written : response;
  to_copy : option string;
  accessed : list string
}.

(** [list_directory(self, path)] *)
Definition list_directory (req : request) (path : string) : head :=
  match listdir fs path with
  | None =>
      mk_head (send_error (command req) NOT_FOUND "No permission to list directory")
        None [path]
  | Some list =>
      let encoded := listing_page P path (http.path req) list in
      mk_head
        (mk_response OK
           [("Content-type", "text/html; charset=" ++ getfilesystemencoding P);
            ("Content-Length", Str.of_nat (String.length encoded))] "")
        (Some encoded) [path]
  end.

(** The test of [send_head] for using the browser's cache: the resource was
    not modified after the instant of [If-Modified-Since]. *)
Definition not_modified (req : request) (f : file) : bool :=
  if (has_header (headers req) "If-Modified-Since"
      && negb (has_header (headers req) "If-None-Match"))%bool
  then
    match get_header (headers req) "If-Modified-Since" with
    | None => false
    | Some v =>
        match parsedate_to_datetime P v with
        | None => false
        | Some ims =>
            match dt_tz ims with
            | tz_offset => false
            | _ => (st_mtime_us f / 1000000) <=? dt_seconds ims
            end
        end
    end
  else false.

(** The part of [send_head] from [ctype = self.guess_type(path)] on. *)
Definition send_file (req : request) (path : string) : head :=
  let ctype := guess_type P path in
  if Str.endswith path "/" then
    mk_head (send_error (command req) NOT_FOUND "File not found") None []
  else
    match open_rb fs path with
    | None =>
        mk_head (send_error (command req) NOT_FOUND "File not found") None [path]
    | Some f =>
        if not_modified req f then
          mk_head (mk_response NOT_MODIFIED [] "") None [path]
        else
          mk_head
            (mk_response OK
               [("Content-type", ctype);
                ("Content-Length", Str.of_int (st_size f));
                ("Last-Modified", date_time_string P (st_mtime_us f))] "")
            (Some (content f)) [path]
    end.

(** [send_head(self)] *)
Definition send_head (directory : string) (req : request) : head :=
  let path := translate_path directory (http.path req) in
  if isdir fs path then
    if negb (Str.endswith (urlsplit_path P (http.path req)) "/") then
      mk_head
        (mk_response MOVED_PERMANENTLY
           [("Location", redirect_url P (http.path req)); ("Content-Length", "0")] "")
        None []
    else
      let index := posixpath.join path "index.html" in
      if isfile fs index then send_file req index
      else
        let index := posixpath.join path "index.htm" in
        if isfile fs index then send_file req index
        else list_directory req path
  else send_file req path.

(** A handled request: the response on the wire and the paths read. *)
Record handled := mk_handled {
  h_directory : string;
  h_response : response;
  h_accessed : list string
}.

(** [do_GET(self)]: the file object of [send_head] is copied to the output. *)
Definition do_GET (directory : string) (req : request) : handled :=
  let h := send_head directory req in
  let w := written h in
  match to_copy h with
  | Some bytes =>
      mk_handled directory (mk_response (status w) (sent_headers w) (body w ++ bytes))
        (accessed h)
  | None => mk_handled directory w (accessed h)
  end.

(** [do_HEAD(self)]: the file object is closed unread. *)
Definition do_HEAD (directory : string) (req : request) : handled :=
  let h := send_head directory req in
  mk_handled directory (written h) (accessed h).

(** [handle_one_request(self)] from the dispatch on [self.command] on, for
    a request [parse_request] has accepted: the class has [do_GET] and
    [do_HEAD] and no other [do_] method. *)
Definition handle_one_request (directory : string) (req : request) : handled :=
  if String.eqb (command req) "GET" then do_GET directory req
  else if String.eqb (command req) "HEAD" then do_HEAD directory req
  else
    mk_handled directory
      (send_error (command req) NOT_IMPLEMENTED
         ("Unsupported method (" ++ repr P (command req) ++ ")"))
      [].

(** [SimpleHTTPRequestHandler.__init__(self, ..., directory=None)]: the
    constructor of the base class runs [handle], so building the handler
    answers the request. *)
Definition SimpleHTTPRequestHandler (getcwd : string) (directory : option string)
    (req : request) : handled :=
  let directory :=
    match directory with
    | None => getcwd
    | Some d => d
    end in
  handle_one_request directory req.

End Handler.

End http.

(** ** serve.py *)

Module serve.

Definition PORT : Z := 8000.

(** An [OSError] as the program sees it: [str(e)], and whether the error is
    the address-in-use condition ([e.errno == errno.EADDRINUSE]), which the
    program does not look at. *)
Record os_error := mk_os_error {
  address_in_use : bool;
  str : string
}.

(** The exceptions of a run: the two classes [main] names, [SystemExit]
    with the integer code it carries, and any other class, by its name. *)
Inductive exn :=
| KeyboardInterrupt
| OSError (e : os_error)
| SystemExit (code : Z)
| OtherException (name : string).

(** The effects of a run, in the order they happen. [ev_TCPServer] is the
    call of the constructor as a whole: creating the socket, binding,
    listening and, when binding or listening fails, the constructor's own
    [server_close()] of the socket it could not set up, before it raises
    again. [ev_server_close] is [httpd.__exit__], by which the [with]
    statement closes the server it was given. *)
Inductive event :=
| ev_print (line : string)
| ev_TCPServer (host : string) (port : Z)
| ev_webbrowser_open (url : string)
| ev_serve_forever
| ev_request (req : http.request) (h : http.handled)
| ev_server_close.

(** Everything outside the script that a run depends on. [None] for an
    outcome: the call returns; for [serve_outcome]: the loop is never left.
    The working directory is one value for the whole run: nothing the script
    calls changes it. The arrivals are the requests [parse_request]
    accepts, each with the state of the disk at that moment. *)
Record World := mk_world {
  getcwd : string;
  file__ : string;
  platform : http.Platform;
  TCPServer_outcome : option exn;
  webbrowser_outcome : option exn;
  arrivals : list (http.FileSystem * http.request);
  serve_outcome : option exn
}.

(** How a computation ends: it returns, it raises, or it is still inside
    [serve_forever]. *)
Inductive result (A : Type) :=
| Returned (a : A)
| Raised (e : exn)
| Serving.
Arguments Returned {A} a.
Arguments Raised {A} e.
Arguments Serving {A}.

(** A computation reads the world and yields its effects and its end. *)
Definition M (A : Type) : Type := World -> list event * result A.

Definition ret {A} (a : A) : M A := fun _ => ([], Returned a).

Definition bind {A B} (c : M A) (k : A -> M B) : M B :=
  fun w =>
    let (t1, r1) := c w in
    match r1 with
    | Returned a => let (t2, r2) := k a w in ((t1 ++ t2)%list, r2)
    | Raised e => (t1, Raised e)
    | Serving => (t1, Serving)
    end.

Declare Scope py_scope.
Delimit Scope py_scope with py.
Notation "x <- c ;; k" := (bind c (fun x => k))
  (at level 100, c at next level, right associativity) : py_scope.
Notation "c ;; k" := (bind c (fun _ => k))
  (at level 100, right associativity) : py_scope.
Local Open Scope py_scope.

(** [try: body except ...:], [handlers] giving the clause that matches the
    exception, if one does. *)
Definition try_except {A} (body : M A) (handlers : exn -> option (M A)) : M A :=
  fun w =>
    let (t1, r1) := body w in
    match r1 with
    | Raised e =>
        match handlers e with
        | Some h => let (t2, r2) := h w in ((t1 ++ t2)%list, r2)
        | None => (t1, Raised e)
        end
    | _ => (t1, r1)
    end.

(** [with ctor as x: body]: nothing to close when the constructor raises;
    otherwise [__exit__] closes the server when the body is left. *)
Definition with_as {A} (ctor : M unit) (body : unit -> M A) : M A :=
  fun w =>
    let (t1, r1) := ctor w in
    match r1 with
    | Returned x =>
        let (t2, r2) := body x w in
        match r2 with
        | Serving => ((t1 ++ t2)%list, Serving)
        | _ => ((t1 ++ t2 ++ [ev_server_close])%list, r2)
        end
    | Raised e => (t1, Raised e)
    | Serving => (t1, Serving)
    end.

(** [print(line)]: standard output is taken to accept the line. *)
Definition print (line : string) : M unit :=
  fun _ => ([ev_print line], Returned tt).

Definition os_getcwd : M string :=
  fun w => ([], Returned (getcwd w)).

Definition outcome (o : option exn) : result unit :=
  match o with
  | None => Returned tt
  | Some e => Raised e
  end.

(** [socketserver.TCPServer((host, port), Handler)]: socket, bind, listen;
    a constructor that raises has left no server to close. *)
Definition TCPServer (host : string) (port : Z) : M unit :=
  fun w => ([ev_TCPServer host port], outcome (TCPServer_outcome w)).

(** [webbrowser.open(url)] *)
Definition webbrowser_open (url : string) : M unit :=
  fun w => ([ev_webbrowser_open url], outcome (webbrowser_outcome w)).

(** [Handler(request, client_address, server)]: [__init__] hands the base
    class [directory=os.path.dirname(os.path.abspath(__file__))]. [os.path]
    is [posixpath]: requests are answered on a POSIX system, where
    [os.getcwd()] is an absolute path. *)
Definition Handler (w : World) (fs : http.FileSystem) (req : http.request)
  : http.handled :=
  http.SimpleHTTPRequestHandler (platform w) fs (getcwd w)
    (Some (posixpath.dirname (posixpath.abspath (getcwd w) (file__ w))))
    req.

(** [httpd.serve_forever()]: a handler is built for every request that
    arrives; the call ends only by an exception. *)
Definition serve_forever (httpd : unit) : M unit :=
  fun w =>
    (ev_serve_forever
       :: map (fun a => ev_request (snd a) (Handler w (fst a) (snd a))) (arrivals w),
     match serve_outcome w with
     | None => Serving
     | Some e => Raised e
     end).

(** The body of [except OSError as e:] *)
Definition except_OSError (e : os_error) : M unit :=
  if Str.contains "Address already in use" (str e) then
    print ("❌ Port " ++ Str.of_int PORT ++ " is already in use. Try a different port or close other servers.") ;;
    print ("🌐 You can also try opening: http://localhost:" ++ Str.of_int PORT)
  else
    print ("❌ Error starting server: " ++ str e).

Definition main : M unit :=
  print "🎮 Starting CodeRunner Development Server..." ;;
  cwd <- os_getcwd ;;
  print ("📁 Serving from: " ++ cwd) ;;
  print ("🌐 Server running at: http://localhost:" ++ Str.of_int PORT) ;;
  print "🚀 Opening game in browser..." ;;
  print "⏹️  Press Ctrl+C to stop the server" ;;
  try_except
    (with_as (TCPServer "" PORT) (fun httpd =>
       webbrowser_open ("http://localhost:" ++ Str.of_int PORT) ;;
       serve_forever httpd))
    (fun e =>
       match e with
       | KeyboardInterrupt => Some (print (String "010" "🛑 Server stopped by user"))
       | OSError e => Some (except_OSError e)
       | SystemExit _ => None
       | OtherException _ => None
       end).

(** [if __name__ == "__main__": main()]: the status the interpreter ends
    the process with, [None] while it is still serving. The script never
    calls [sys.exit]; a [SystemExit] nothing catches ends the interpreter
    with the code it carries, any other exception with a traceback and
    status 1. *)
Definition exit_status (w : World) : option Z :=
  match snd (main w) with
  | Returned _ => Some 0
  | Raised (SystemExit code) => Some code
  | Raised _ => Some 1
  | Serving => None
  end.

Definition trace (w : World) : list event := fst (main w).

End serve.

(** ** Vocabulary of the specification *)

Module spec.

Import serve.

(** The serving root: the directory of the script. *)
Definition script_dir (w : World) : string :=
  posixpath.dirname (posixpath.abspath (getcwd w) (file__ w)).

(** The five status lines of a run. *)
Definition status_lines (w : World) : list event :=
  [ev_print "🎮 Starting CodeRunner Development Server...";
   ev_print ("📁 Serving from: " ++ getcwd w);
   ev_print "🌐 Server running at: http://localhost:8000";
   ev_print "🚀 Opening game in browser...";
   ev_print "⏹️  Press Ctrl+C to stop the server"].

Definition stop_line : string := String "010" "🛑 Server stopped by user".

Definition port_conflict_lines : list event :=
  [ev_print "❌ Port 8000 is already in use. Try a different port or close other servers.";
   ev_print "🌐 You can also try opening: http://localhost:8000"].

Definition error_line (e : os_error) : event :=
  ev_print ("❌ Error starting server: " ++ str e).

(** What the [except] clauses do with an exception that leaves the [try]
    body: the lines printed and how [main] ends. *)
Definition after_raise (e : exn) : list event * result unit :=
  match e with
  | KeyboardInterrupt => ([ev_print stop_line], Returned tt)
  | OSError e =>
      (if Str.contains "Address already in use" (str e)
       then port_conflict_lines else [error_line e],
       Returned tt)
  | SystemExit code => ([], Raised (SystemExit code))
  | OtherException n => ([], Raised (OtherException n))
  end.

(** The exception that leaves the [try] body, if one does: the first of the
    three calls that raises. *)
Definition raised_in_try (w : World) : option exn :=
  match TCPServer_outcome w with
  | Some e => Some e
  | None =>
      match webbrowser_outcome w with
      | Some e => Some e
      | None => serve_outcome w
      end
  end.

(** The exceptions an [except] clause of [main] names. *)
Definition caught (e : exn) : bool :=
  match e with
  | KeyboardInterrupt => true
  | OSError _ => true
  | SystemExit _ => false
  | OtherException _ => false
  end.

(** The requests answered during the serve loop. *)
Definition answered (w : World) : list event :=
  map (fun a => ev_request (snd a) (Handler w (fst a) (snd a))) (arrivals w).

Definition is_bind (ev : event) : bool :=
  match ev with ev_TCPServer _ _ => true | _ => false end.

Definition is_open (ev : event) : bool :=
  match ev with ev_webbrowser_open _ => true | _ => false end.

Definition is_serve (ev : event) : bool :=
  match ev with ev_serve_forever => true | _ => false end.

Definition count (f : event -> bool) (tr : list event) : nat :=
  List.length (filter f tr).

(** The events that follow the construction of the server. *)
Fixpoint after_bind (tr : list event) : list event :=
  match tr with
  | [] => []
  | ev :: tr' => if is_bind ev then tr' else after_bind tr'
  end.

(** The lines printed, in order. *)
Fixpoint printed (tr : list event) : list string :=
  match tr with
  | [] => []
  | ev_print line :: tr' => line :: printed tr'
  | _ :: tr' => printed tr'
  end.

Definition names_port (line : string) : bool :=
  Str.contains (Str.of_int PORT) line.

Definition suggests_remedy (line : string) : bool :=
  (Str.contains "different port" line || Str.contains "close other servers" line)%bool.

Definition returned (r : result unit) : bool :=
  match r with Returned _ => true | _ => false end.

(** The report of a port conflict: once the bind has failed a line names the
    port and suggests a remedy, there is one bind in the run, the serve loop
    is not entered and [main] returns. *)
Definition port_conflict_reported (w : World) : bool :=
  (existsb (fun line => names_port line && suggests_remedy line)
     (printed (after_bind (trace w)))
   && Nat.eqb (count is_bind (trace w)) 1
   && Nat.eqb (count is_serve (trace w)) 0
   && returned (snd (main w)))%bool.

(** The launcher took the port-conflict branch of [except OSError]: the two
    port-conflict lines are all it prints once the server was constructed. *)
Definition port_conflict_branch (w : World) : Prop :=
  map ev_print (printed (after_bind (trace w))) = port_conflict_lines.

(** The launcher took the generic branch of [except OSError]: the error
    line is all it prints once the server was constructed. *)
Definition generic_branch (w : World) (e : os_error) : Prop :=
  map ev_print (printed (after_bind (trace w))) = [error_line e].

(** The path of the [Serving from] status line of a run. *)
Definition serving_from (tr : list event) : option string :=
  match find (fun line => Str.startswith line "📁 Serving from: ") (printed tr) with
  | Some line => Some (String.substring (String.length "📁 Serving from: ")
                         (String.length line - String.length "📁 Serving from: ") line)
  | None => None
  end.

(** [p] lies inside the directory [root]: it is [root], or [root], a
    separator and a relative rest none of whose components is [..]. *)
Definition within (root p : string) : Prop :=
  p = root \/
  exists rest, p = posixpath.join root "" ++ rest
               /\ ~ In ".." (Str.split Str.slash rest).

(** The same, as a test. *)
Definition withinb (root p : string) : bool :=
  let r := posixpath.join root "" in
  (String.eqb p root
   || (Str.startswith p r
       && negb (existsb (String.eqb "..")
                  (Str.split Str.slash
                     (String.substring (String.length r)
                        (String.length p - String.length r) p)))))%bool.

(** A name the loop of [translate_path] joins to the directory: it holds no
    separator and is not [..]. *)
Definition simple (w : string) : Prop :=
  Str.has_char Str.slash w = false /\ w <> "..".

(** The path [p] resolves to the readable file [f]: it is no directory and
    opening it yields [f]. *)
Definition resolves_to_file (fs : http.FileSystem) (p : string) (f : http.file) : Prop :=
  http.isdir fs p = false /\ http.open_rb fs p = Some f.


(** The path a request is resolved to in a run. *)
Definition resolved (w : World) (req : http.request) : string :=
  http.translate_path (platform w) (script_dir w) (http.path req).






(** The handler opened [f] to answer: it handed a path to [open] and got
    [f]. *)
Definition opened (fs : http.FileSystem) (h : http.handled) (f : http.file) : Prop :=
  exists p, In p (http.h_accessed h) /\ http.open_rb fs p = Some f.

(** No path inside [root] leads, through symbolic links, to a file whose
    bytes live outside [root]. *)
Definition no_links_out (fs : http.FileSystem) (root : string) : Prop :=
  forall p f,
    within root p -> http.open_rb fs p = Some f -> within root (http.realpath f).

(** C7 as the specification states it: no file outside the script's
    directory is ever read. *)
Definition C7_claim : Prop :=
  forall (w : World) (fs : http.FileSystem) (req : http.request) (f : http.file),
    posixpath.isabs (getcwd w) = true ->
    opened fs (Handler w fs req) f ->
    within (script_dir w) (http.realpath f).

(** A proper name in a path: not empty, [.] or [..], and without separator. *)
Definition properb (c : string) : bool :=
  (Str.nonempty c && negb (String.eqb c ".") && negb (String.eqb c "..")
   && negb (Str.has_char Str.slash c))%bool.

(** The names a request path asks for, query and fragment left out. *)
Definition request_names (P : http.Platform) (path : string) : list string :=
  filter properb
    (Str.split Str.slash
       (posixpath.normpath
          (http.unquote P (Str.before "#"%char (Str.before "?"%char path))))).

(** The request path ends in a separator. *)
Definition asks_directory (path : string) : bool :=
  Str.endswith (Str.rstrip (Str.before "#"%char (Str.before "?"%char path))) "/".

(** The path [names] lead to below [root]: [root], a separator unless
    [root] ends in one, and the names joined by separators. *)
Definition below (root : string) (names : list string) : string :=
  match names with
  | [] => root
  | _ => (if Str.endswith root "/" then root else root ++ "/")
         ++ Str.join_with "/" names
  end.

(** The path a request for [path] is resolved to against [root]. *)
Definition resolution (P : http.Platform) (root path : string) : string :=
  below root (request_names P path) ++ (if asks_directory path then "/" else "").

End spec.

(** ** Sample worlds *)

Module sample.

Import serve.

(** A platform for the examples: its text helpers are those of the standard
    library on the inputs used here (no percent escapes, no query). *)
Definition P : http.Platform :=
  http.mk_platform
    (fun s => s)
    (fun s => Str.before "#"%char (Str.before "?"%char s))
    (fun s => s ++ "/")
    (fun _ => "text/html")
    (fun v => if String.eqb v "Thu, 01 Jan 2026 00:00:00 GMT"
              then Some (http.mk_datetime 1767225600 http.tz_utc) else None)
    (fun _ => "Mon, 01 Dec 2025 00:00:00 GMT")
    (fun s => "'" ++ s ++ "'")
    (fun _ message => message)
    (fun _ _ names => Str.join_with (String "010" "") names)
    "utf-8".

Definition index_html : http.file :=
  http.mk_file "<!DOCTYPE html><title>CodeRunner</title>" 40 1764547200000000
    "/home/dev/CodeRunner/index.html".

(** The script's directory holds [index.html] and nothing else. *)
Definition disk : http.FileSystem :=
  http.mk_fs
    (fun p => String.eqb p "/home/dev/CodeRunner" || String.eqb p "/home/dev/CodeRunner/")
    (fun p => String.eqb p "/home/dev/CodeRunner/index.html")
    (fun p => if String.eqb p "/home/dev/CodeRunner/index.html" then Some index_html else None)
    (fun p => if String.eqb p "/home/dev/CodeRunner" || String.eqb p "/home/dev/CodeRunner/"
              then Some ["index.html"] else None).

Definition get (path : string) : http.request := http.mk_request "GET" path [].

Definition get_cached (path : string) : http.request :=
  http.mk_request "GET" path [("If-Modified-Since", "Thu, 01 Jan 2026 00:00:00 GMT")].

Definition post (path : string) : http.request := http.mk_request "POST" path [].

(** [/etc/passwd], reached through a symbolic link. *)
Definition passwd : http.file :=
  http.mk_file "root:x:0:0:root:/root:/bin/sh" 29 1764547200000000 "/etc/passwd".

(** The script's directory holds [index.html] and [users.txt], a symbolic
    link to [/etc/passwd]. *)
Definition disk_linked : http.FileSystem :=
  http.mk_fs
    (http.isdir disk)
    (fun p => http.isfile disk p || String.eqb p "/home/dev/CodeRunner/users.txt")
    (fun p => if String.eqb p "/home/dev/CodeRunner/users.txt" then Some passwd
              else http.open_rb disk p)
    (fun p => if http.isdir disk p then Some ["index.html"; "users.txt"] else None).


Definition eaddrinuse_linux : os_error :=
  mk_os_error true "[Errno 98] Address already in use".

Definition eaddrinuse_windows : os_error :=
  mk_os_error true
    "[WinError 10048] Only one usage of each socket address (protocol/network address/port) is normally permitted".

Definition eacces : os_error :=
  mk_os_error false "[Errno 13] Permission denied".

(** Started from the script's directory, port free, two requests, Ctrl+C. *)
Definition w_interrupted : World :=
  mk_world "/home/dev/CodeRunner" "/home/dev/CodeRunner/serve.py" P None None
    [(disk, get "/index.html"); (disk, get "/../../etc/passwd")]
    (Some KeyboardInterrupt).

(** Started from the parent directory, port free, still serving. *)
Definition w_elsewhere : World :=
  mk_world "/home/dev" "/home/dev/CodeRunner/serve.py" P None None
    [(disk, get "/index.html")] None.

(** Port taken, on Linux. *)
Definition w_port_taken : World :=
  mk_world "/home/dev/CodeRunner" "/home/dev/CodeRunner/serve.py" P
    (Some (OSError eaddrinuse_linux)) None [] None.

(** Port taken, on Windows. No request is answered in this run, so no path
    is computed ([os.path] is not [posixpath] there). *)
Definition w_port_taken_windows : World :=
  mk_world "C:\dev\CodeRunner" "C:\dev\CodeRunner\serve.py" P
    (Some (OSError eaddrinuse_windows)) None [] None.

(** Binding refused for another reason. *)
Definition w_denied : World :=
  mk_world "/home/dev/CodeRunner" "/home/dev/CodeRunner/serve.py" P
    (Some (OSError eacces)) None [] None.

End sample.

(** ** More vocabulary: life cycle, canonical paths, responses *)

Module more.

Import serve spec.

(** The [with] statement closes the server. *)
Definition is_close (ev : event) : bool :=
  match ev with ev_server_close => true | _ => false end.

Definition is_request (ev : event) : bool :=
  match ev with ev_request _ _ => true | _ => false end.

(** The server was constructed and the call that opens the browser
    returned: the run reached [serve_forever]. *)
Definition started (w : World) : bool :=
  match TCPServer_outcome w, webbrowser_outcome w with
  | None, None => true
  | _, _ => false
  end.

(** The events of the [with] statement in a run: the bind, and when the
    server was constructed the browser call, the serve loop with the
    requests it answers, and the closing of the server once an exception
    leaves the body. *)
Definition try_events (w : World) : list event :=
  ev_TCPServer "" 8000
  :: match TCPServer_outcome w with
     | Some _ => []
     | None =>
         ev_webbrowser_open "http://localhost:8000"
         :: match webbrowser_outcome w with
            | Some _ => [ev_server_close]
            | None =>
                ev_serve_forever
                :: (answered w
                    ++ match serve_outcome w with
                       | Some _ => [ev_server_close]
                       | None => []
                       end)%list
            end
     end.

(** A component of a normalized path: a name that is not empty, [.] or
    [..] and holds no separator. *)
Definition proper (c : string) : Prop :=
  c <> "" /\ c <> "." /\ c <> ".." /\ Str.has_char Str.slash c = false.

(** A normalized absolute path: one or two leading separators, then proper
    components joined by single separators. *)
Definition canonical (p : string) : Prop :=
  exists (k : nat) (comps : list string),
    (k = 1%nat \/ k = 2%nat)
    /\ Forall proper comps
    /\ p = posixpath.seps k ++ Str.join_with posixpath.sep comps.

(** The same request with another method. *)
Definition with_command (cmd : string) (req : http.request) : http.request :=
  http.mk_request cmd (http.path req) (http.headers req).

(** The [Content-Length] header of a response, if it has one. *)
Definition content_length (r : http.response) : option string :=
  http.get_header (http.sent_headers r) "Content-Length".


(** Ctrl+C while the server is being constructed. *)
Definition w_interrupted_early : World :=
  mk_world "/home/dev/CodeRunner" "/home/dev/CodeRunner/serve.py" sample.P
    (Some KeyboardInterrupt) None [] None.

(** No browser can be launched: [webbrowser.open] raises an [OSError];
    a request is waiting. *)
Definition w_no_browser : World :=
  mk_world "/home/dev/CodeRunner" "/home/dev/CodeRunner/serve.py" sample.P
    None (Some (OSError (mk_os_error false "[Errno 2] No such file or directory: 'xdg-open'")))
    [(sample.disk, sample.get "/index.html")] None.



(** Started from the parent directory with a relative [__file__] that is
    not normalized. *)
Definition w_relative : World :=
  mk_world "/home/dev" "CodeRunner/../CodeRunner/./serve.py" sample.P
    None None [(sample.disk, sample.get "/index.html")] None.

Definition head_ (path : string) : http.request := http.mk_request "HEAD" path [].

End more.

(** ** Runs of the model *)

Module Examples_path.

Example split_ab : Str.split Str.slash "/a//b" = [""; "a"; ""; "b"].
Proof. reflexivity. Qed.

Example of_int_port : Str.of_int 8000 = "8000".
Proof. reflexivity. Qed.

Example dirname_file : posixpath.dirname "/home/dev/CodeRunner/serve.py" = "/home/dev/CodeRunner".
Proof. reflexivity. Qed.

Example dirname_root : posixpath.dirname "/serve.py" = "/".
Proof. reflexivity. Qed.

Example dirname_bare : posixpath.dirname "serve.py" = "".
Proof. reflexivity. Qed.

Example normpath_dots : posixpath.normpath "/a/./b/../../c//d/" = "/c/d".
Proof. reflexivity. Qed.

Example normpath_up : posixpath.normpath "../../x/.." = "../..".
Proof. reflexivity. Qed.

Example normpath_two : posixpath.normpath "//a" = "//a".
Proof. reflexivity. Qed.

Example normpath_three : posixpath.normpath "///a/../.." = "/".
Proof. reflexivity. Qed.

Example abspath_rel : posixpath.abspath "/home/dev" "CodeRunner/serve.py" = "/home/dev/CodeRunner/serve.py".
Proof. reflexivity. Qed.

Example join_dir : posixpath.join "/srv" "index.html" = "/srv/index.html".
Proof. reflexivity. Qed.

Example join_root : posixpath.join "/" "index.html" = "/index.html".
Proof. reflexivity. Qed.

Example join_abs : posixpath.join "/srv" "/etc" = "/etc".
Proof. reflexivity. Qed.

End Examples_path.


Module Examples_run.

Import serve spec.

Example translate_plain :
  http.translate_path sample.P "/srv" "/assets/player.png?v=3#top" = "/srv/assets/player.png".
Proof. reflexivity. Qed.

Example translate_dotdot :
  http.translate_path sample.P "/srv" "/a/../../etc/passwd" = "/srv/etc/passwd".
Proof. reflexivity. Qed.

Example translate_slash :
  http.translate_path sample.P "/srv" "/assets/" = "/srv/assets/".
Proof. reflexivity. Qed.

(** With an empty directory the root request is translated to the root of
    the file system: the reason the serving root is shown to be absolute. *)
Example translate_empty_directory : http.translate_path sample.P "" "/" = "/".
Proof. reflexivity. Qed.

Example within_yes : withinb "/srv" "/srv/etc/passwd" = true.
Proof. reflexivity. Qed.

Example within_no : withinb "/srv" "/srv/../etc/passwd" = false.
Proof. reflexivity. Qed.

Example within_sibling : withinb "/srv" "/srv2/index.html" = false.
Proof. reflexivity. Qed.

Example run_port_taken :
  main sample.w_port_taken
  = ([ev_print "🎮 Starting CodeRunner Development Server...";
      ev_print "📁 Serving from: /home/dev/CodeRunner";
      ev_print "🌐 Server running at: http://localhost:8000";
      ev_print "🚀 Opening game in browser...";
      ev_print "⏹️  Press Ctrl+C to stop the server";
      ev_TCPServer "" 8000;
      ev_print "❌ Port 8000 is already in use. Try a different port or close other servers.";
      ev_print "🌐 You can also try opening: http://localhost:8000"],
     Returned tt).
Proof. reflexivity. Qed.

Example run_port_taken_windows :
  after_bind (trace sample.w_port_taken_windows)
  = [ev_print "❌ Error starting server: [WinError 10048] Only one usage of each socket address (protocol/network address/port) is normally permitted"].
Proof. reflexivity. Qed.

Example run_interrupted_tail :
  after_bind (trace sample.w_interrupted)
  = [ev_webbrowser_open "http://localhost:8000";
     ev_serve_forever;
     ev_request (sample.get "/index.html")
       (http.mk_handled "/home/dev/CodeRunner"
          (http.mk_response 200
             [("Content-type", "text/html");
              ("Content-Length", "40");
              ("Last-Modified", "Mon, 01 Dec 2025 00:00:00 GMT")]
             "<!DOCTYPE html><title>CodeRunner</title>")
          ["/home/dev/CodeRunner/index.html"]);
     ev_request (sample.get "/../../etc/passwd")
       (http.mk_handled "/home/dev/CodeRunner"
          (http.mk_response 404
             [("Connection", "close");
              ("Content-Type", "text/html;charset=utf-8");
              ("Content-Length", "14")]
             "File not found")
          ["/home/dev/CodeRunner/etc/passwd"]);
     ev_server_close;
     ev_print stop_line].
Proof. reflexivity. Qed.

Example answer_directory :
  http.h_response (Handler sample.w_elsewhere sample.disk (sample.get "/"))
  = http.mk_response 200
      [("Content-type", "text/html");
       ("Content-Length", "40");
       ("Last-Modified", "Mon, 01 Dec 2025 00:00:00 GMT")]
      "<!DOCTYPE html><title>CodeRunner</title>".
Proof. reflexivity. Qed.

Example answer_post :
  http.status (http.h_response (Handler sample.w_elsewhere sample.disk (sample.post "/index.html")))
  = 501.
Proof. reflexivity. Qed.

Example status_uncaught :
  exit_status
    (mk_world "/home/dev" "/home/dev/CodeRunner/serve.py" sample.P
       None (Some (OtherException "webbrowser.Error")) [] None)
  = Some 1.
Proof. reflexivity. Qed.

End Examples_run.

(** ** Facts about strings and paths *)

Module Str_facts.

Lemma append_assoc (a b c : string) : (a ++ b) ++ c = a ++ b ++ c.
Proof. induction a as [|x a IH]; cbn; [reflexivity|]. rewrite IH. reflexivity. Qed.

Lemma append_empty_r (a : string) : a ++ "" = a.
Proof. induction a as [|x a IH]; cbn; [reflexivity|]. rewrite IH. reflexivity. Qed.

Lemma split_nonempty (c : ascii) (s : string) : Str.split c s <> [].
Proof.
  induction s as [|a s IH]; cbn; [discriminate|].
  destruct (Ascii.eqb a c); [discriminate|].
  destruct (Str.split c s); discriminate.
Qed.

(** A string without the separator is its own single component. *)
Lemma split_no_sep (c : ascii) (s : string) :
  Str.has_char c s = false -> Str.split c s = [s].
Proof.
  induction s as [|a s IH]; cbn; [reflexivity|].
  intro H. apply orb_false_iff in H. destruct H as [Ha Hs].
  rewrite Ha, (IH Hs). reflexivity.
Qed.

(** Splitting distributes over a separator. *)
Lemma split_app_sep (c : ascii) (a b : string) :
  Str.split c (a ++ String c b) = (Str.split c a ++ Str.split c b)%list.
Proof.
  induction a as [|x a IH]; cbn.
  - rewrite Ascii.eqb_refl. reflexivity.
  - destruct (Ascii.eqb x c); rewrite IH; [reflexivity|].
    pose proof (split_nonempty c a) as Hne.
    destruct (Str.split c a); [contradiction|reflexivity].
Qed.

Lemma endswith_last (s : string) (c : ascii) :
  Str.endswith s (String c "") = true <-> Str.last_char s = Some c.
Proof.
  induction s as [|a s IH]; cbn.
  - split; discriminate.
  - destruct s as [|b s].
    + cbn. destruct (Ascii.eqb_spec a c) as [->|Hne]; cbn.
      * split; reflexivity.
      * split; [discriminate|]. intros [= ->]. contradiction.
    + destruct (Ascii.eqb a c); exact IH.
Qed.

Lemma last_char_cons (a : ascii) (s : string) :
  s <> "" -> Str.last_char (String a s) = Str.last_char s.
Proof. destruct s; [contradiction|reflexivity]. Qed.

Lemma last_char_app (a b : string) :
  b <> "" -> Str.last_char (a ++ b) = Str.last_char b.
Proof.
  intro Hb. induction a as [|x a IH]; [reflexivity|].
  cbn [append]. rewrite last_char_cons; [exact IH|].
  destruct a; [exact Hb|discriminate].
Qed.

Lemma last_char_snoc (s : string) (c : ascii) :
  Str.last_char s = Some c -> exists r, s = r ++ String c "".
Proof.
  induction s as [|a s IH]; [discriminate|].
  destruct s as [|b s].
  - cbn. intros [= ->]. exists "". reflexivity.
  - intro H. destruct (IH H) as (r & Hr). exists (String a r).
    cbn. rewrite <- Hr. reflexivity.
Qed.

Lemma startswith_app (p s : string) : Str.startswith (p ++ s) p = true.
Proof.
  induction p as [|a p IH]; cbn; [destruct s; reflexivity|].
  rewrite Ascii.eqb_refl. exact IH.
Qed.

Lemma startswith_split (s p : string) :
  Str.startswith s p = true ->
  s = p ++ String.substring (String.length p) (String.length s - String.length p) s.
Proof.
  revert s. induction p as [|a p IH]; intros s H.
  - cbn. clear H. rewrite Nat.sub_0_r.
    induction s as [|b s IHs]; cbn; [reflexivity|]. rewrite <- IHs. reflexivity.
  - destruct s as [|b s]; [discriminate|]. cbn in H.
    apply andb_true_iff in H. destruct H as [Hab H].
    apply Ascii.eqb_eq in Hab. subst b. cbn. f_equal. apply IH, H.
Qed.

Lemma startswith_spec (s p : string) :
  Str.startswith s p = true <-> exists t, s = p ++ t.
Proof.
  split.
  - intro H. eexists. apply startswith_split, H.
  - intros (t & ->). apply startswith_app.
Qed.

(** [needle in hay] holds exactly when [needle] occurs in [hay]. *)
Lemma contains_spec (needle hay : string) :
  Str.contains needle hay = true <-> exists a b, hay = a ++ needle ++ b.
Proof.
  split.
  - induction hay as [|x hay IH]; cbn [Str.contains]; intro H;
      apply orb_true_iff in H; destruct H as [H|H].
    + apply startswith_spec in H. destruct H as (t & H). exists "", t. exact H.
    + discriminate.
    + apply startswith_spec in H. destruct H as (t & H). exists "", t. exact H.
    + destruct (IH H) as (a & b & ->). exists (String x a), b. reflexivity.
  - intros (a & b & ->). induction a as [|x a IH].
    + cbn [append]. destruct (needle ++ b) eqn:E; cbn [Str.contains];
        rewrite <- E, startswith_app; reflexivity.
    + cbn [append Str.contains]. rewrite IH. apply orb_true_r.
Qed.

Lemma substring_all (s : string) : String.substring 0 (String.length s) s = s.
Proof. induction s as [|a s IH]; cbn; [reflexivity|]. rewrite IH. reflexivity. Qed.

Lemma substring_skip (p s : string) :
  String.substring (String.length p)
    (String.length (p ++ s) - String.length p) (p ++ s) = s.
Proof.
  induction p as [|a p IH]; cbn.
  - rewrite Nat.sub_0_r. apply substring_all.
  - exact IH.
Qed.

Lemma no_sep_not_abs (w : string) :
  Str.has_char Str.slash w = false -> Str.startswith w posixpath.sep = false.
Proof.
  destruct w as [|a w]; [reflexivity|].
  cbn [Str.has_char Str.startswith posixpath.sep].
  intro H. apply orb_false_iff in H. destruct H as [Ha _].
  unfold Str.slash in Ha. rewrite Ascii.eqb_sym, Ha. reflexivity.
Qed.

(** Stripping leaves nothing only of a string made of the stripped
    character. *)
Lemma rstrip_empty (c : ascii) (s : string) :
  Str.rstrip_char c s = "" -> Str.all_char c s = true.
Proof.
  unfold Str.rstrip_char. induction s as [|a s IH]; cbn; [reflexivity|].
  destruct (Str.rstrip_by (Ascii.eqb c) s) eqn:E; [|discriminate].
  destruct (Ascii.eqb c a) eqn:Ea; [|discriminate].
  intros _. rewrite Ascii.eqb_sym, Ea. apply IH. reflexivity.
Qed.

Lemma rstrip_head (c a : ascii) (s : string) :
  Str.rstrip_char c (String a s) = ""
  \/ exists r, Str.rstrip_char c (String a s) = String a r.
Proof.
  unfold Str.rstrip_char. cbn.
  destruct (Str.rstrip_by (Ascii.eqb c) s).
  - destruct (Ascii.eqb c a); eauto.
  - eauto.
Qed.

(** [dirname] is empty only for a name without separator. *)
Lemma dirname_empty (w : string) :
  posixpath.dirname w = "" -> Str.has_char Str.slash w = false.
Proof.
  unfold posixpath.dirname. destruct w as [|a w]; [reflexivity|].
  cbn [Str.upto_last].
  destruct (Str.has_char Str.slash (String a w)); [|reflexivity].
  cbn [Str.nonempty String.eqb negb andb].
  destruct (Str.all_char Str.slash (String a (Str.upto_last Str.slash w))) eqn:E;
    cbn [negb]; [discriminate|].
  intro H. apply rstrip_empty in H. congruence.
Qed.

Lemma join_empty (a : string) :
  posixpath.join a "" = a \/ posixpath.join a "" = a ++ "/".
Proof.
  unfold posixpath.join, posixpath.sep. cbn [Str.startswith].
  destruct (negb (Str.nonempty a) || Str.endswith a "/")%bool.
  - left. apply append_empty_r.
  - right. reflexivity.
Qed.

(** Joining a name without separator: the name is appended to the directory
    and its separator. *)
Lemma join_name (a w : string) :
  Str.has_char Str.slash w = false ->
  posixpath.join a w = posixpath.join a "" ++ w.
Proof.
  intro H. unfold posixpath.join. rewrite (no_sep_not_abs w H).
  unfold posixpath.sep. cbn [Str.startswith].
  destruct (negb (Str.nonempty a) || Str.endswith a "/")%bool.
  - rewrite append_empty_r. reflexivity.
  - rewrite !append_assoc. reflexivity.
Qed.

Lemma isabs_cons (s : string) :
  posixpath.isabs s = true <-> exists t, s = String "/" t.
Proof.
  unfold posixpath.isabs, posixpath.sep. destruct s as [|a s].
  - split; [discriminate|]. intros (t & H). discriminate.
  - cbn [Str.startswith]. destruct (Ascii.eqb_spec "/" a) as [<-|Hne].
    + split; [intros _; exists s; reflexivity|reflexivity].
    + split; [discriminate|]. intros (t & H). injection H as H _. congruence.
Qed.

Lemma isabs_app (a b : string) :
  posixpath.isabs a = true -> posixpath.isabs (a ++ b) = true.
Proof.
  intro H. apply isabs_cons in H. destruct H as (t & ->).
  apply isabs_cons. cbn. eauto.
Qed.

Lemma join_isabs (a b : string) :
  posixpath.isabs a = true -> posixpath.isabs (posixpath.join a b) = true.
Proof.
  intro Ha. unfold posixpath.join.
  destruct (Str.startswith b posixpath.sep) eqn:Hb; [exact Hb|].
  destruct (negb (Str.nonempty a) || Str.endswith a posixpath.sep)%bool;
    apply isabs_app, Ha.
Qed.

Lemma normpath_isabs (p : string) :
  posixpath.isabs p = true -> posixpath.isabs (posixpath.normpath p) = true.
Proof.
  intro H. unfold posixpath.normpath. fold (posixpath.isabs p). rewrite H.
  apply isabs_cons in H. destruct H as (t & ->).
  cbn [String.eqb].
  destruct (Str.startswith (String "/" t) (posixpath.seps 2)
            && negb (Str.startswith (String "/" t) (posixpath.seps 3)))%bool;
    reflexivity.
Qed.

Lemma abspath_isabs (cwd f : string) :
  posixpath.isabs cwd = true -> posixpath.isabs (posixpath.abspath cwd f) = true.
Proof.
  intro H. unfold posixpath.abspath.
  destruct (posixpath.isabs f) eqn:Hf.
  - apply normpath_isabs, Hf.
  - apply normpath_isabs, join_isabs, H.
Qed.

Lemma dirname_isabs (p : string) :
  posixpath.isabs p = true -> posixpath.isabs (posixpath.dirname p) = true.
Proof.
  intro H. apply isabs_cons in H. destruct H as (t & ->).
  unfold posixpath.dirname.
  change (Str.upto_last Str.slash (String "/" t))
    with (String "/" (Str.upto_last Str.slash t)).
  set (h := Str.upto_last Str.slash t).
  cbn [Str.nonempty String.eqb negb andb].
  destruct (Str.all_char Str.slash (String "/" h)) eqn:E; cbn [negb]; [reflexivity|].
  destruct (rstrip_head Str.slash "/" h) as [H|(r & H)].
  - apply rstrip_empty in H. congruence.
  - rewrite H. reflexivity.
Qed.

End Str_facts.

(** ** The launcher *)

Module launcher.

Import serve spec Str_facts.

(** [main] in closed form, by the first call of the [try] body that raises. *)
Lemma main_unfold (w : World) :
  main w =
  match TCPServer_outcome w with
  | Some e =>
      ((status_lines w ++ ev_TCPServer "" 8000 :: fst (after_raise e))%list,
       snd (after_raise e))
  | None =>
      match webbrowser_outcome w with
      | Some e =>
          ((status_lines w
            ++ [ev_TCPServer "" 8000; ev_webbrowser_open "http://localhost:8000";
                ev_server_close]
            ++ fst (after_raise e))%list,
           snd (after_raise e))
      | None =>
          match serve_outcome w with
          | Some e =>
              ((status_lines w
                ++ [ev_TCPServer "" 8000; ev_webbrowser_open "http://localhost:8000";
                    ev_serve_forever]
                ++ answered w ++ [ev_server_close] ++ fst (after_raise e))%list,
               snd (after_raise e))
          | None =>
              ((status_lines w
                ++ [ev_TCPServer "" 8000; ev_webbrowser_open "http://localhost:8000";
                    ev_serve_forever]
                ++ answered w)%list,
               Serving)
          end
      end
  end.
Proof.
  unfold main, try_except, with_as, bind, print, os_getcwd, TCPServer,
    webbrowser_open, serve_forever, outcome, answered, status_lines.
  destruct (TCPServer_outcome w) as [e|];
    [|destruct (webbrowser_outcome w) as [e|];
      [|destruct (serve_outcome w) as [e|]]];
    try destruct e as [|e|c|n]; cbn;
    unfold except_OSError, bind, print;
    try destruct (Str.contains _ (str e)); cbn;
    rewrite <- ?app_assoc, ?app_nil_r; reflexivity.
Qed.

Lemma result_main (w : World) :
  snd (main w) =
  match raised_in_try w with
  | Some e => snd (after_raise e)
  | None => Serving
  end.
Proof.
  rewrite main_unfold. unfold raised_in_try.
  destruct (TCPServer_outcome w); [reflexivity|].
  destruct (webbrowser_outcome w); [reflexivity|].
  destruct (serve_outcome w); reflexivity.
Qed.

Lemma count_app (f : event -> bool) (a b : list event) :
  count f (a ++ b) = (count f a + count f b)%nat.
Proof. unfold count. rewrite filter_app, length_app. reflexivity. Qed.

Lemma printed_app (a b : list event) :
  printed (a ++ b) = (printed a ++ printed b)%list.
Proof.
  induction a as [|ev a IH]; [reflexivity|].
  destruct ev; cbn; rewrite IH; reflexivity.
Qed.

(** Answering requests prints nothing and touches neither the listener nor
    the browser. *)
Lemma answered_quiet (w : World) :
  printed (answered w) = []
  /\ count is_bind (answered w) = 0%nat
  /\ count is_open (answered w) = 0%nat
  /\ count is_serve (answered w) = 0%nat.
Proof.
  unfold answered. induction (arrivals w) as [|a l IH]; cbn; auto.
Qed.

(** The [except] clauses only print. *)
Lemma after_raise_prints (e : exn) :
  map ev_print (printed (fst (after_raise e))) = fst (after_raise e).
Proof.
  destruct e as [|e|c|n]; cbn; try reflexivity.
  destruct (Str.contains _ (str e)); reflexivity.
Qed.

Lemma count_prints (f : event -> bool) (lines : list string) :
  (forall line, f (ev_print line) = false) ->
  count f (map ev_print lines) = 0%nat.
Proof.
  intros Hf. unfold count.
  induction lines as [|l ls IH]; cbn; [reflexivity|].
  rewrite Hf. exact IH.
Qed.

Lemma after_raise_quiet (f : event -> bool) (e : exn) :
  (forall line, f (ev_print line) = false) ->
  count f (fst (after_raise e)) = 0%nat.
Proof.
  intros Hf. rewrite <- after_raise_prints. apply count_prints, Hf.
Qed.

(** What is printed once the server was constructed: the lines of the
    [except] clause that caught the exception. *)
Lemma printed_after_bind (w : World) :
  printed (after_bind (trace w)) =
  match raised_in_try w with
  | Some e => printed (fst (after_raise e))
  | None => []
  end.
Proof.
  unfold trace, raised_in_try. rewrite main_unfold.
  destruct (answered_quiet w) as [Hq _].
  destruct (TCPServer_outcome w); [reflexivity|].
  destruct (webbrowser_outcome w); [reflexivity|].
  destruct (serve_outcome w); cbn; rewrite ?printed_app, Hq; reflexivity.
Qed.

Lemma count_cons (f : event -> bool) (ev : event) (tr : list event) :
  count f (ev :: tr) = ((if f ev then 1 else 0) + count f tr)%nat.
Proof. unfold count. cbn. destruct (f ev); reflexivity. Qed.

Lemma count_nil (f : event -> bool) : count f [] = 0%nat.
Proof. reflexivity. Qed.

(** Counting one kind of event over a run, case by case. *)
Ltac count_run w :=
  unfold trace; rewrite main_unfold;
  let Hb := fresh in let Ho := fresh in let Hs := fresh in
  destruct (answered_quiet w) as (_ & Hb & Ho & Hs);
  destruct (TCPServer_outcome w) as [?e|];
    [|destruct (webbrowser_outcome w) as [?e|];
      [|destruct (serve_outcome w) as [?e|]]];
  cbn [fst]; unfold status_lines;
  repeat (rewrite count_app || rewrite count_cons || rewrite count_nil);
  rewrite ?Hb, ?Ho, ?Hs, ?after_raise_quiet by reflexivity;
  reflexivity.

(** One bind per run: no clause of [main] constructs a second server. *)
Lemma count_bind_trace (w : World) : count is_bind (trace w) = 1%nat.
Proof. count_run w. Qed.

(** The browser is opened once when the server was constructed, and not at
    all otherwise. *)
Lemma count_open_trace (w : World) :
  count is_open (trace w) =
  match TCPServer_outcome w with Some _ => 0%nat | None => 1%nat end.
Proof. count_run w. Qed.

(** The serve loop is entered once when both calls before it returned. *)
Lemma count_serve_trace (w : World) :
  count is_serve (trace w) =
  match TCPServer_outcome w, webbrowser_outcome w with
  | None, None => 1%nat
  | _, _ => 0%nat
  end.
Proof. count_run w. Qed.

Lemma In_count (f : event -> bool) (ev : event) (tr : list event) :
  In ev tr -> f ev = true -> count f tr <> 0%nat.
Proof.
  intros Hin Hf. induction tr as [|x tr IH]; [destruct Hin|].
  rewrite count_cons. destruct Hin as [->|Hin].
  - rewrite Hf. discriminate.
  - specialize (IH Hin). destruct (f x); cbn; lia.
Qed.

(** The [Serving from] line carries [os.getcwd()]. *)
Lemma serving_from_is_cwd (w : World) : serving_from (trace w) = Some (getcwd w).
Proof.
  unfold trace. rewrite main_unfold.
  assert (H : forall rest,
             serving_from (status_lines w ++ rest) = Some (getcwd w)).
  { intro rest. unfold serving_from, status_lines.
    cbn [app printed find].
    replace (Str.startswith "🎮 Starting CodeRunner Development Server..." _)
      with false by reflexivity.
    rewrite startswith_app. f_equal. apply substring_skip. }
  destruct (TCPServer_outcome w); [apply H|].
  destruct (webbrowser_outcome w); [apply H|].
  destruct (serve_outcome w); apply H.
Qed.

(** Every handler the serve loop builds is the base class run on the
    script's directory. *)
Lemma Handler_directory (w : World) (fs : http.FileSystem) (req : http.request) :
  Handler w fs req = http.handle_one_request (platform w) fs (script_dir w) req
  /\ http.h_directory (Handler w fs req) = script_dir w.
Proof.
  split; [reflexivity|].
  unfold Handler, http.SimpleHTTPRequestHandler, http.handle_one_request,
    http.do_GET, http.do_HEAD.
  destruct (String.eqb (http.command req) "GET").
  - destruct (http.to_copy _); reflexivity.
  - destruct (String.eqb (http.command req) "HEAD"); reflexivity.
Qed.

Lemma In_prints (ev : event) (lines : list string) :
  In ev (map ev_print lines) -> exists line, ev = ev_print line.
Proof.
  intro H. apply in_map_iff in H. destruct H as (line & <- & _). eauto.
Qed.

(** The requests of a run are those of the serve loop. *)
Lemma requests_of_trace (w : World) (req : http.request) (h : http.handled) :
  In (ev_request req h) (trace w) -> In (ev_request req h) (answered w).
Proof.
  unfold trace. rewrite main_unfold.
  assert (Hr : forall e, ~ In (ev_request req h) (fst (after_raise e))).
  { intros e H. rewrite <- after_raise_prints in H.
    apply In_prints in H. destruct H as (line & H). discriminate. }
  assert (Hs : forall rest, In (ev_request req h) (status_lines w ++ rest) ->
                            In (ev_request req h) rest).
  { intros rest H. apply in_app_or in H. destruct H as [H|H]; [|exact H].
    cbn in H. repeat (destruct H as [H|H]; [discriminate|]). destruct H. }
  destruct (TCPServer_outcome w) as [e|];
    [|destruct (webbrowser_outcome w) as [e|];
      [|destruct (serve_outcome w) as [e|]]];
    intro H; apply Hs in H; cbn [fst] in H.
  - destruct H as [H|H]; [discriminate|]. destruct (Hr _ H).
  - cbn in H. repeat (destruct H as [H|H]; [discriminate|]). destruct (Hr _ H).
  - cbn [app] in H. repeat (destruct H as [H|H]; [discriminate|]).
    apply in_app_or in H. destruct H as [H|H]; [exact H|].
    destruct H as [H|H]; [discriminate|]. destruct (Hr _ H).
  - cbn [app] in H. repeat (destruct H as [H|H]; [discriminate|]). exact H.
Qed.

(** The handler behind a request of a run: the base class on the script's
    directory. *)
Lemma request_handler (w : World) (req : http.request) (h : http.handled) :
  In (ev_request req h) (trace w) ->
  http.h_directory h = script_dir w
  /\ exists fs,
       In (fs, req) (arrivals w)
       /\ h = http.handle_one_request (platform w) fs (script_dir w) req.
Proof.
  intro H. apply requests_of_trace in H. unfold answered in H.
  apply in_map_iff in H. destruct H as ([fs req'] & Heq & Hin).
  cbn [fst snd] in Heq. injection Heq as -> <-.
  split.
  - apply (Handler_directory w fs req).
  - exists fs. split; [exact Hin|]. apply (Handler_directory w fs req).
Qed.

(** A run whose server was constructed starts with the status lines, the
    bind and the call that opens the browser, which is not repeated. *)
Lemma trace_started (w : World) :
  TCPServer_outcome w = None ->
  exists rest,
    trace w
    = (status_lines w
       ++ ev_TCPServer "" 8000 :: ev_webbrowser_open "http://localhost:8000" :: rest)%list
    /\ count is_open rest = 0%nat.
Proof.
  intro Hb.
  assert (Hone : count is_open (trace w) = 1%nat)
    by (rewrite count_open_trace, Hb; reflexivity).
  assert (Ht : exists rest,
             trace w
             = (status_lines w
                ++ ev_TCPServer "" 8000
                   :: ev_webbrowser_open "http://localhost:8000" :: rest)%list).
  { unfold trace. rewrite main_unfold, Hb.
    destruct (webbrowser_outcome w); [|destruct (serve_outcome w)];
      eexists; reflexivity. }
  destruct Ht as (rest & Ht). exists rest. split; [exact Ht|].
  rewrite Ht in Hone. unfold status_lines in Hone.
  repeat (rewrite count_app in Hone || rewrite count_cons in Hone).
  cbn in Hone. lia.
Qed.

(** ** Claims about the launcher *)

(** C1, as the specification states it, fails: a bind that fails because the
    port is in use is not always answered with the port-conflict report. On
    Windows the text of the error is not the one the launcher looks for. *)
Lemma C1_port_conflict_unreported :
  ~ (forall (w : World) (e : os_error),
       TCPServer_outcome w = Some (OSError e) ->
       address_in_use e = true ->
       port_conflict_reported w = true).
Proof.
  intro H.
  specialize (H sample.w_port_taken_windows sample.eaddrinuse_windows eq_refl eq_refl).
  vm_compute in H. discriminate.
Qed.

(** C1 (amended): if constructing the server raises an [OSError] whose text
    contains [Address already in use], the launcher prints the line naming
    port 8000 with the remedy and the line with the URL, binds once, does not
    enter the serve loop, and [main] returns. *)
Theorem C1_port_conflict_report (w : World) (e : os_error) :
  TCPServer_outcome w = Some (OSError e) ->
  Str.contains "Address already in use" (str e) = true ->
  trace w = (status_lines w ++ ev_TCPServer "" 8000 :: port_conflict_lines)%list
  /\ snd (main w) = Returned tt
  /\ port_conflict_reported w = true.
Proof.
  intros Hb Hc.
  assert (Hr : raised_in_try w = Some (OSError e))
    by (unfold raised_in_try; rewrite Hb; reflexivity).
  repeat split.
  - unfold trace. rewrite main_unfold, Hb. cbn. rewrite Hc. reflexivity.
  - rewrite result_main, Hr. reflexivity.
  - unfold port_conflict_reported.
    rewrite printed_after_bind, count_bind_trace, count_serve_trace, result_main, Hr, Hb.
    cbn [after_raise fst snd]. rewrite Hc. reflexivity.
Qed.

Lemma C1_port_conflict_report_witness :
  trace sample.w_port_taken
  = (status_lines sample.w_port_taken ++ ev_TCPServer "" 8000 :: port_conflict_lines)%list
  /\ snd (main sample.w_port_taken) = Returned tt
  /\ port_conflict_reported sample.w_port_taken = true.
Proof.
  apply (C1_port_conflict_report sample.w_port_taken sample.eaddrinuse_linux);
    reflexivity.
Defined.

(** C2: when [KeyboardInterrupt] is raised while serving, the server is
    closed, the stop line is printed last, [main] returns and the process
    ends with status 0. *)
Theorem C2_keyboard_interrupt (w : World) :
  TCPServer_outcome w = None ->
  webbrowser_outcome w = None ->
  serve_outcome w = Some KeyboardInterrupt ->
  trace w
  = (status_lines w
     ++ [ev_TCPServer "" 8000; ev_webbrowser_open "http://localhost:8000";
         ev_serve_forever]
     ++ answered w ++ [ev_server_close; ev_print stop_line])%list
  /\ snd (main w) = Returned tt
  /\ exit_status w = Some 0.
Proof.
  intros Hb Ho Hs.
  assert (Hm : snd (main w) = Returned tt).
  { rewrite result_main. unfold raised_in_try. rewrite Hb, Ho, Hs. reflexivity. }
  repeat split.
  - unfold trace. rewrite main_unfold, Hb, Ho, Hs. reflexivity.
  - exact Hm.
  - unfold exit_status. rewrite Hm. reflexivity.
Qed.

Lemma C2_keyboard_interrupt_witness :
  trace sample.w_interrupted
  = (status_lines sample.w_interrupted
     ++ [ev_TCPServer "" 8000; ev_webbrowser_open "http://localhost:8000";
         ev_serve_forever]
     ++ answered sample.w_interrupted ++ [ev_server_close; ev_print stop_line])%list
  /\ snd (main sample.w_interrupted) = Returned tt
  /\ exit_status sample.w_interrupted = Some 0.
Proof.
  apply (C2_keyboard_interrupt sample.w_interrupted); reflexivity.
Defined.

(** C3: when the server is constructed, the run starts with the five status
    lines, then the bind on port 8000, then the one call that opens the
    browser at [http://localhost:8000]; when that call returns the serve
    loop follows and answers the requests, and unless an exception ends the
    loop [main] stays in it. *)
Theorem C3_startup_order (w : World) :
  TCPServer_outcome w = None ->
  (exists rest,
     trace w
     = (status_lines w
        ++ ev_TCPServer "" 8000 :: ev_webbrowser_open "http://localhost:8000" :: rest)%list)
  /\ count is_open (trace w) = 1%nat
  /\ count is_bind (trace w) = 1%nat
  /\ (webbrowser_outcome w = None ->
      (exists rest,
         trace w
         = (status_lines w
            ++ [ev_TCPServer "" 8000; ev_webbrowser_open "http://localhost:8000";
                ev_serve_forever]
            ++ answered w ++ rest)%list)
      /\ (serve_outcome w = None ->
          trace w
          = (status_lines w
             ++ [ev_TCPServer "" 8000; ev_webbrowser_open "http://localhost:8000";
                 ev_serve_forever]
             ++ answered w)%list
          /\ snd (main w) = Serving)).
Proof.
  intro Hb. split; [|split; [|split]].
  - destruct (trace_started w Hb) as (rest & Ht & _). eauto.
  - rewrite count_open_trace, Hb. reflexivity.
  - apply count_bind_trace.
  - intro Ho. split.
    + unfold trace. rewrite main_unfold, Hb, Ho.
      destruct (serve_outcome w); cbn [fst].
      * eexists. reflexivity.
      * exists []. rewrite app_nil_r. reflexivity.
    + intro Hs. split.
      * unfold trace. rewrite main_unfold, Hb, Ho, Hs. reflexivity.
      * rewrite result_main. unfold raised_in_try. rewrite Hb, Ho, Hs. reflexivity.
Qed.

Lemma C3_startup_order_witness :
  trace sample.w_elsewhere
  = (status_lines sample.w_elsewhere
     ++ [ev_TCPServer "" 8000; ev_webbrowser_open "http://localhost:8000";
         ev_serve_forever]
     ++ answered sample.w_elsewhere)%list
  /\ snd (main sample.w_elsewhere) = Serving.
Proof.
  apply (C3_startup_order sample.w_elsewhere); reflexivity.
Defined.

(** C5 at a run started from another directory: the [Serving from] line
    shows [/home/dev], the requests are answered from
    [/home/dev/CodeRunner]. *)
Theorem C5_serving_from_differs :
  serving_from (trace sample.w_elsewhere) = Some "/home/dev"
  /\ script_dir sample.w_elsewhere = "/home/dev/CodeRunner"
  /\ (forall req h,
        In (ev_request req h) (trace sample.w_elsewhere) ->
        http.h_directory h = "/home/dev/CodeRunner")
  /\ serving_from (trace sample.w_elsewhere) <> Some (script_dir sample.w_elsewhere).
Proof.
  split; [apply serving_from_is_cwd|].
  split; [reflexivity|].
  split; [|rewrite serving_from_is_cwd; discriminate].
  intros req h H. apply request_handler in H. destruct H as [H _].
  rewrite H. reflexivity.
Qed.

(** C6: an [OSError] from the construction of the server whose text does
    not contain [Address already in use] is answered with the line carrying
    the error's text, after which [main] returns, the one bind not retried,
    and the process ends with status 0; and whichever exception an [except]
    clause of [main] catches, the process ends with status 0. *)
Theorem C6_startup_error (w : World) (e : os_error) :
  TCPServer_outcome w = Some (OSError e) ->
  Str.contains "Address already in use" (str e) = false ->
  trace w = (status_lines w ++ [ev_TCPServer "" 8000; error_line e])%list
  /\ snd (main w) = Returned tt
  /\ count is_bind (trace w) = 1%nat
  /\ exit_status w = Some 0
  /\ (forall w' e',
        raised_in_try w' = Some e' -> caught e' = true -> exit_status w' = Some 0).
Proof.
  intros Hb Hc.
  assert (Hall : forall w' e',
             raised_in_try w' = Some e' -> caught e' = true ->
             exit_status w' = Some 0).
  { intros w' e' Hr Hcaught. unfold exit_status. rewrite result_main, Hr.
    destruct e'; [reflexivity|reflexivity|discriminate|discriminate]. }
  assert (Hr : raised_in_try w = Some (OSError e))
    by (unfold raised_in_try; rewrite Hb; reflexivity).
  repeat split.
  - unfold trace. rewrite main_unfold, Hb. cbn. rewrite Hc. reflexivity.
  - rewrite result_main, Hr. reflexivity.
  - apply count_bind_trace.
  - apply (Hall w (OSError e)); [exact Hr|reflexivity].
  - exact Hall.
Qed.

Lemma C6_startup_error_witness :
  trace sample.w_denied
  = (status_lines sample.w_denied
     ++ [ev_TCPServer "" 8000; error_line sample.eacces])%list
  /\ exit_status sample.w_denied = Some 0
  /\ exit_status sample.w_interrupted = Some 0.
Proof.
  destruct (C6_startup_error sample.w_denied sample.eacces eq_refl eq_refl)
    as (Ht & _ & _ & Hx & Hall).
  split; [exact Ht|]. split; [exact Hx|].
  apply (Hall sample.w_interrupted KeyboardInterrupt); reflexivity.
Defined.

(** C9: an [OSError] caught by [main] is handled as a port conflict exactly
    when [Address already in use] occurs in its text; otherwise, also when
    the error is an address-in-use failure, it goes through the generic
    branch. *)
Theorem C9_classification (w : World) (e : os_error) :
  raised_in_try w = Some (OSError e) ->
  (port_conflict_branch w <-> exists a b, str e = a ++ "Address already in use" ++ b)
  /\ (port_conflict_branch w <-> Str.contains "Address already in use" (str e) = true)
  /\ (generic_branch w e <-> Str.contains "Address already in use" (str e) = false)
  /\ (address_in_use e = true ->
      Str.contains "Address already in use" (str e) = false ->
      generic_branch w e /\ ~ port_conflict_branch w).
Proof.
  intro Hr.
  assert (Hp : map ev_print (printed (after_bind (trace w)))
               = if Str.contains "Address already in use" (str e)
                 then port_conflict_lines else [error_line e]).
  { rewrite printed_after_bind, Hr, after_raise_prints. reflexivity. }
  rewrite <- contains_spec.
  unfold port_conflict_branch, generic_branch. rewrite Hp.
  destruct (Str.contains "Address already in use" (str e)).
  - repeat split; try reflexivity; try discriminate.
  - repeat split; try reflexivity; try discriminate.
Qed.

Lemma C9_classification_witness :
  generic_branch sample.w_port_taken_windows sample.eaddrinuse_windows
  /\ ~ port_conflict_branch sample.w_port_taken_windows.
Proof.
  apply (C9_classification sample.w_port_taken_windows sample.eaddrinuse_windows);
    reflexivity.
Defined.

(** C10: when constructing the server raises, the browser is not opened;
    a call that opens the browser happens only in a run whose server was
    constructed, and after the bind. *)
Theorem C10_browser_after_bind (w : World) :
  (forall e, TCPServer_outcome w = Some e ->
             count is_open (trace w) = 0%nat
             /\ forall url, ~ In (ev_webbrowser_open url) (trace w))
  /\ (forall url, In (ev_webbrowser_open url) (trace w) ->
        TCPServer_outcome w = None
        /\ exists pre post,
             trace w = (pre ++ ev_webbrowser_open url :: post)%list
             /\ In (ev_TCPServer "" 8000) pre
             /\ count is_open pre = 0%nat).
Proof.
  assert (Hnone : forall e, TCPServer_outcome w = Some e ->
                            count is_open (trace w) = 0%nat).
  { intros e Hb. rewrite count_open_trace, Hb. reflexivity. }
  split.
  - intros e Hb. split; [eauto|].
    intros url Hin. apply (In_count is_open) in Hin; [|reflexivity].
    apply Hin. eauto.
  - intros url Hin.
    destruct (TCPServer_outcome w) as [e|] eqn:Hb.
    { apply (In_count is_open) in Hin; [|reflexivity].
      destruct Hin. eauto. }
    split; [reflexivity|].
    destruct (trace_started w Hb) as (rest & Ht & Hrest).
    exists (status_lines w ++ [ev_TCPServer "" 8000])%list, rest.
    assert (Hurl : url = "http://localhost:8000").
    { rewrite Ht in Hin. apply in_app_or in Hin. destruct Hin as [Hin|Hin].
      - cbn in Hin. repeat (destruct Hin as [Hin|Hin]; [discriminate|]).
        destruct Hin.
      - destruct Hin as [Hin|[Hin|Hin]]; [discriminate|congruence|].
        apply (In_count is_open) in Hin; [|reflexivity]. contradiction. }
    subst url. split; [|split].
    + rewrite Ht, <- app_assoc. reflexivity.
    + apply in_or_app. right. left. reflexivity.
    + reflexivity.
Qed.

Lemma C10_browser_after_bind_witness :
  count is_open (trace sample.w_port_taken) = 0%nat
  /\ TCPServer_outcome sample.w_elsewhere = None.
Proof.
  split.
  - apply (proj1 (C10_browser_after_bind sample.w_port_taken)
             (OSError sample.eaddrinuse_linux) eq_refl).
  - apply (proj2 (C10_browser_after_bind sample.w_elsewhere) "http://localhost:8000").
    vm_compute. auto 10.
Defined.

End launcher.

(** ** The request handler *)

Module handler.

Import serve spec Str_facts.

Lemma within_refl (root : string) : within root root.
Proof. left. reflexivity. Qed.

(** Going down by a simple name stays inside the root. *)
Lemma within_join (root p w : string) :
  within root p -> simple w -> within root (posixpath.join p w).
Proof.
  intros Hp (Hw & Hdd). right.
  assert (Hsplit : ~ In ".." (Str.split Str.slash w)).
  { rewrite (split_no_sep _ _ Hw). intros [H|[]]. congruence. }
  destruct Hp as [->|(rest & -> & Hrest)].
  - exists w. split; [apply join_name, Hw|exact Hsplit].
  - rewrite (join_name _ _ Hw).
    set (R := posixpath.join root "") in *.
    unfold posixpath.join, posixpath.sep. cbn [Str.startswith].
    destruct (negb (Str.nonempty (R ++ rest)) || Str.endswith (R ++ rest) "/")%bool
      eqn:E.
    + rewrite append_empty_r, append_assoc.
      destruct rest as [|x rest'] eqn:Er; [exists w; split; [reflexivity|exact Hsplit]|].
      rewrite <- Er in *. 
      assert (Hne : rest <> "") by (rewrite Er; discriminate).
      apply orb_true_iff in E. destruct E as [E|E].
      { exfalso. unfold Str.nonempty in E. rewrite negb_involutive in E.
        apply String.eqb_eq in E. rewrite Er in E. destruct R; discriminate. }
      apply endswith_last in E. rewrite (last_char_app _ _ Hne) in E.
      apply last_char_snoc in E. destruct E as (r & Hr).
      exists (rest ++ w). split; [reflexivity|].
      rewrite Hr, append_assoc. cbn [append].
      rewrite split_app_sep. rewrite Hr, split_app_sep in Hrest.
      intro Hin. apply in_app_or in Hin. destruct Hin as [Hin|Hin].
      * apply Hrest, in_or_app. left. exact Hin.
      * apply Hsplit, Hin.
    + exists (rest ++ "/" ++ w). split; [rewrite !append_assoc; reflexivity|].
      cbn [append]. rewrite split_app_sep.
      intro Hin. apply in_app_or in Hin. destruct Hin as [Hin|Hin]; auto.
Qed.

(** An explicit trailing slash stays inside the root. *)
Lemma within_slash (root p : string) :
  within root p -> within root (p ++ "/").
Proof.
  intros [->|(rest & -> & Hrest)]; right.
  - destruct (join_empty root) as [H|H]; rewrite H.
    + exists "/". split; [reflexivity|]. cbn. intros [H'|[H'|[]]]; discriminate.
    + exists "". split; [rewrite append_empty_r; reflexivity|].
      cbn. intros [H'|[]]; discriminate.
  - exists (rest ++ "/"). split; [apply append_assoc|].
    rewrite split_app_sep. intro Hin. apply in_app_or in Hin.
    destruct Hin as [Hin|[Hin|[]]]; [auto|discriminate].
Qed.

Lemma translate_step_within (root p w : string) :
  within root p -> within root (http.translate_step p w).
Proof.
  intro Hp. unfold http.translate_step.
  destruct (Str.nonempty (posixpath.dirname w)) eqn:Hd; [exact Hp|].
  destruct (String.eqb w ".") eqn:H1; [exact Hp|].
  destruct (String.eqb w "..") eqn:H2; [exact Hp|].
  cbn [orb]. apply within_join; [exact Hp|]. split.
  - apply dirname_empty. unfold Str.nonempty in Hd.
    apply negb_false_iff, String.eqb_eq in Hd. exact Hd.
  - apply String.eqb_neq, H2.
Qed.

Lemma fold_translate_within (root : string) (words : list string) (p : string) :
  within root p -> within root (fold_left http.translate_step words p).
Proof.
  revert p. induction words as [|w ws IH]; intros p Hp; [exact Hp|].
  cbn [fold_left]. apply IH, translate_step_within, Hp.
Qed.

(** Whatever the request path and however it is unquoted, the path it is
    translated to lies inside the handler's directory. *)
Lemma translate_path_within (P : http.Platform) (directory path : string) :
  within directory (http.translate_path P directory path).
Proof.
  unfold http.translate_path.
  match goal with
  | |- context [fold_left http.translate_step ?ws directory] =>
      pose proof (fold_translate_within directory ws directory
                    (within_refl directory)) as H
  end.
  destruct (Str.endswith _ "/"); [apply within_slash|]; exact H.
Qed.

(** Every path [send_head] opens or lists lies inside the directory. *)
Lemma send_head_accessed (P : http.Platform) (fs : http.FileSystem)
    (directory : string) (req : http.request) :
  Forall (within directory) (http.accessed (http.send_head P fs directory req)).
Proof.
  pose proof (translate_path_within P directory (http.path req)) as Hp.
  assert (Hfile : forall p, within directory p ->
            Forall (within directory) (http.accessed (http.send_file P fs req p))).
  { intros p Hin. unfold http.send_file.
    destruct (Str.endswith p "/"); [apply Forall_nil|].
    destruct (http.open_rb fs p) as [f|];
      [destruct (http.not_modified P req f)|];
      (apply Forall_cons; [exact Hin|apply Forall_nil]). }
  assert (Hindex : forall name, Str.has_char Str.slash name = false -> name <> ".." ->
            within directory
              (posixpath.join (http.translate_path P directory (http.path req)) name)).
  { intros name H1 H2. apply within_join; [exact Hp|split; assumption]. }
  unfold http.send_head.
  destruct (http.isdir fs _); [|apply Hfile, Hp].
  destruct (negb (Str.endswith _ "/")); [apply Forall_nil|].
  destruct (http.isfile fs _);
    [apply Hfile, Hindex; [reflexivity|discriminate]|].
  destruct (http.isfile fs _);
    [apply Hfile, Hindex; [reflexivity|discriminate]|].
  unfold http.list_directory.
  destruct (http.listdir fs _); (apply Forall_cons; [exact Hp|apply Forall_nil]).
Qed.

Lemma handle_accessed (P : http.Platform) (fs : http.FileSystem)
    (directory : string) (req : http.request) :
  Forall (within directory)
    (http.h_accessed (http.handle_one_request P fs directory req)).
Proof.
  pose proof (send_head_accessed P fs directory req) as H.
  unfold http.handle_one_request, http.do_GET, http.do_HEAD.
  destruct (String.eqb (http.command req) "GET").
  - destruct (http.to_copy _); exact H.
  - destruct (String.eqb (http.command req) "HEAD"); [exact H|apply Forall_nil].
Qed.

(** The script's directory is an absolute path. *)
Lemma script_dir_isabs (w : World) :
  posixpath.isabs (getcwd w) = true -> posixpath.isabs (script_dir w) = true.
Proof.
  intro H. apply dirname_isabs, abspath_isabs, H.
Qed.

(** [within], as a test. *)
Lemma withinb_spec (root p : string) : withinb root p = true <-> within root p.
Proof.
  unfold withinb, within. set (R := posixpath.join root "").
  split.
  - intro H. apply orb_true_iff in H. destruct H as [H|H].
    + left. apply String.eqb_eq, H.
    + right. apply andb_true_iff in H. destruct H as [Hs Hn].
      exists (String.substring (String.length R) (String.length p - String.length R) p).
      split; [apply startswith_split, Hs|].
      apply negb_true_iff in Hn. intro Hin.
      assert (existsb (String.eqb "..") (Str.split Str.slash
                (String.substring (String.length R)
                   (String.length p - String.length R) p)) = true)
        by (apply existsb_exists; exists ".."; split; [exact Hin|reflexivity]).
      congruence.
  - intros [->|(rest & -> & Hrest)].
    + rewrite String.eqb_refl. reflexivity.
    + rewrite startswith_app, substring_skip.
      apply orb_true_iff. right. cbn [andb]. apply negb_true_iff.
      destruct (existsb (String.eqb "..") (Str.split Str.slash rest)) eqn:E;
        [|reflexivity].
      apply existsb_exists in E. destruct E as (x & Hin & Hx).
      apply String.eqb_eq in Hx. subst x. contradiction.
Qed.




(** ** Claims about the handler *)

(** C7, as the specification states it, fails: a symbolic link inside the
    script's directory makes the handler read and return a file that lives
    outside it. The request for [/users.txt] is answered 200 with the bytes
    of [/etc/passwd]. *)
Lemma C7_link_leads_out :
  ~ C7_claim
  /\ opened sample.disk_linked
       (Handler sample.w_elsewhere sample.disk_linked (sample.get "/users.txt"))
       sample.passwd
  /\ http.h_response
       (Handler sample.w_elsewhere sample.disk_linked (sample.get "/users.txt"))
     = http.mk_response 200
         [("Content-type", "text/html");
          ("Content-Length", "29");
          ("Last-Modified", "Mon, 01 Dec 2025 00:00:00 GMT")]
         (http.content sample.passwd)
  /\ ~ within (script_dir sample.w_elsewhere) (http.realpath sample.passwd).
Proof.
  assert (Hopen : opened sample.disk_linked
                    (Handler sample.w_elsewhere sample.disk_linked (sample.get "/users.txt"))
                    sample.passwd).
  { exists "/home/dev/CodeRunner/users.txt". split; [left; reflexivity|reflexivity]. }
  assert (Hout : ~ within (script_dir sample.w_elsewhere) (http.realpath sample.passwd)).
  { intro H. apply withinb_spec in H. vm_compute in H. discriminate. }
  split; [|split; [exact Hopen|split; [reflexivity|exact Hout]]].
  intro H. apply Hout.
  apply (H sample.w_elsewhere sample.disk_linked (sample.get "/users.txt"));
    [reflexivity|exact Hopen].
Qed.

(** C7 (amended): in a run started from an absolute working directory the
    serving root is an absolute path, every request path is translated to a
    path inside it, and every path the handler opens or lists lies inside
    it, as paths are written; a file whose bytes live outside the root is
    opened only through a symbolic link inside it: on a disk where no path
    inside the root leads out, every file the handler opens lives inside. *)
Theorem C7_containment (w : World) (fs : http.FileSystem) (req : http.request) :
  posixpath.isabs (getcwd w) = true ->
  posixpath.isabs (script_dir w) = true
  /\ within (script_dir w)
       (http.translate_path (platform w) (script_dir w) (http.path req))
  /\ Forall (within (script_dir w)) (http.h_accessed (Handler w fs req))
  /\ (forall f, opened fs (Handler w fs req) f ->
                exists p, within (script_dir w) p /\ http.open_rb fs p = Some f)
  /\ (no_links_out fs (script_dir w) ->
      forall f, opened fs (Handler w fs req) f ->
                within (script_dir w) (http.realpath f)).
Proof.
  intro H.
  assert (Hacc : Forall (within (script_dir w)) (http.h_accessed (Handler w fs req)))
    by apply handle_accessed.
  assert (Hop : forall f, opened fs (Handler w fs req) f ->
                          exists p, within (script_dir w) p /\ http.open_rb fs p = Some f).
  { intros f (p & Hin & Ho). exists p. split; [|exact Ho].
    rewrite Forall_forall in Hacc. apply Hacc, Hin. }
  split; [apply script_dir_isabs, H|]. split; [apply translate_path_within|].
  split; [exact Hacc|]. split; [exact Hop|].
  intros Hno f Hf. destruct (Hop f Hf) as (p & Hp & Ho). apply (Hno p f Hp Ho).
Qed.

Lemma C7_containment_witness :
  Forall (within "/home/dev/CodeRunner")
    (http.h_accessed
       (Handler sample.w_interrupted sample.disk (sample.get "/../../etc/passwd"))).
Proof.
  apply (C7_containment sample.w_interrupted sample.disk
           (sample.get "/../../etc/passwd")).
  reflexivity.
Defined.




End handler.

(** ** The life cycle of a run *)

Module lifecycle.

Import serve spec more Str_facts launcher.

Lemma answered_requests (w : World) :
  filter is_request (answered w) = answered w
  /\ count is_close (answered w) = 0%nat.
Proof.
  unfold answered, count. induction (arrivals w) as [|a l [IH1 IH2]]; cbn; [auto|].
  rewrite IH1. auto.
Qed.

Lemma filter_prints (f : event -> bool) (lines : list string) :
  (forall line, f (ev_print line) = false) ->
  filter f (map ev_print lines) = [].
Proof.
  intro Hf. induction lines as [|l ls IH]; cbn; [reflexivity|].
  rewrite Hf. exact IH.
Qed.

Lemma after_raise_filter (f : event -> bool) (e : exn) :
  (forall line, f (ev_print line) = false) ->
  filter f (fst (after_raise e)) = [].
Proof.
  intro Hf. rewrite <- after_raise_prints. apply filter_prints, Hf.
Qed.

(** A run is the status lines, the events of the [with] statement, and the
    lines of the [except] clause that catches what left it. *)
Lemma trace_shape (w : World) :
  trace w
  = (status_lines w ++ try_events w
     ++ match raised_in_try w with
        | Some e => fst (after_raise e)
        | None => []
        end)%list.
Proof.
  unfold trace, try_events, raised_in_try. rewrite main_unfold.
  destruct (TCPServer_outcome w); [reflexivity|].
  destruct (webbrowser_outcome w); [reflexivity|].
  destruct (serve_outcome w); cbn [fst app].
  - rewrite <- app_assoc. reflexivity.
  - rewrite !app_nil_r. reflexivity.
Qed.



(** X2: a [KeyboardInterrupt] raised anywhere in the [try] body, also while
    the server is constructed or the browser opened, is caught: the stop
    line is the last event and the only line printed after the bind, [main]
    returns and the process ends with status 0. *)
Theorem X2_interrupt_anywhere (w : World) :
  raised_in_try w = Some KeyboardInterrupt ->
  trace w = (status_lines w ++ try_events w ++ [ev_print stop_line])%list
  /\ printed (after_bind (trace w)) = [stop_line]
  /\ snd (main w) = Returned tt
  /\ exit_status w = Some 0.
Proof.
  intro Hr.
  assert (Hm : snd (main w) = Returned tt) by (rewrite result_main, Hr; reflexivity).
  split; [|split; [|split]].
  - rewrite trace_shape, Hr. reflexivity.
  - rewrite printed_after_bind, Hr. reflexivity.
  - exact Hm.
  - unfold exit_status. rewrite Hm. reflexivity.
Qed.

Lemma X2_interrupt_anywhere_witness :
  trace w_interrupted_early
  = (status_lines w_interrupted_early ++ [ev_TCPServer "" 8000; ev_print stop_line])%list
  /\ exit_status w_interrupted_early = Some 0.
Proof.
  destruct (X2_interrupt_anywhere w_interrupted_early eq_refl) as (Ht & _ & _ & Hx).
  split; [exact Ht|exact Hx].
Defined.



(** X4: the [with] statement closes the server, by [httpd.__exit__],
    exactly in the runs that constructed it and whose [try] body an
    exception left, once, and before the [except] clause prints; in a run
    whose constructor raised [__exit__] is not run (what the constructor
    cleans up of its own socket is part of its call), and a run that is
    still serving has closed nothing. *)
Theorem X4_closed_before_report (w : World) :
  count is_close (trace w)
  = match TCPServer_outcome w, raised_in_try w with
    | None, Some _ => 1%nat
    | _, _ => 0%nat
    end
  /\ (forall e,
        TCPServer_outcome w = None ->
        raised_in_try w = Some e ->
        exists pre,
          trace w = (pre ++ ev_server_close :: fst (after_raise e))%list
          /\ count is_close pre = 0%nat).
Proof.
  destruct (answered_requests w) as [_ Hq].
  split.
  - rewrite trace_shape. unfold try_events, raised_in_try, status_lines.
    destruct (TCPServer_outcome w) as [e|];
      [|destruct (webbrowser_outcome w) as [e|];
        [|destruct (serve_outcome w) as [e|]]];
      repeat (rewrite count_app || rewrite count_cons || rewrite count_nil);
      rewrite ?Hq, ?after_raise_quiet by reflexivity; reflexivity.
  - intros e Hb Hr. rewrite trace_shape, Hr. unfold try_events, raised_in_try in *.
    rewrite Hb in *. destruct (webbrowser_outcome w).
    + exists (status_lines w
              ++ [ev_TCPServer "" 8000; ev_webbrowser_open "http://localhost:8000"])%list.
      split; [rewrite <- app_assoc; reflexivity|reflexivity].
    + rewrite Hr.
      exists (status_lines w
              ++ [ev_TCPServer "" 8000; ev_webbrowser_open "http://localhost:8000";
                  ev_serve_forever] ++ answered w)%list.
      split; [rewrite <- !app_assoc; cbn [app]; rewrite <- app_assoc; reflexivity|].
      unfold status_lines.
      repeat (rewrite count_app || rewrite count_cons || rewrite count_nil).
      rewrite Hq. reflexivity.
Qed.

Lemma X4_closed_before_report_witness :
  exists pre,
    trace sample.w_interrupted = (pre ++ [ev_server_close; ev_print stop_line])%list
    /\ count is_close pre = 0%nat.
Proof.
  apply (proj2 (X4_closed_before_report sample.w_interrupted) KeyboardInterrupt);
    reflexivity.
Defined.

(** X5: requests are answered only in a run that constructed the server and
    whose browser call returned, and then every arrival is answered, in
    order; when [webbrowser.open] raises, the server just bound is closed
    without having answered a request. *)
Theorem X5_requests_answered (w : World) :
  filter is_request (trace w) = (if started w then answered w else [])
  /\ (forall e,
        TCPServer_outcome w = None ->
        webbrowser_outcome w = Some e ->
        trace w
        = (status_lines w
           ++ [ev_TCPServer "" 8000; ev_webbrowser_open "http://localhost:8000";
               ev_server_close]
           ++ fst (after_raise e))%list).
Proof.
  destruct (answered_requests w) as [Hq _].
  split.
  - rewrite trace_shape. unfold try_events, raised_in_try, started, status_lines.
    destruct (TCPServer_outcome w) as [e|];
      [|destruct (webbrowser_outcome w) as [e|];
        [|destruct (serve_outcome w) as [e|]]];
      cbn [app filter is_request];
      rewrite ?filter_app, ?Hq, ?after_raise_filter by reflexivity;
      cbn [app filter is_request]; rewrite ?app_nil_r; reflexivity.
  - intros e Hb Ho. unfold trace. rewrite main_unfold, Hb, Ho. reflexivity.
Qed.

Lemma X5_requests_answered_witness :
  filter is_request (trace w_no_browser) = []
  /\ arrivals w_no_browser <> [].
Proof.
  split; [|discriminate].
  rewrite (proj1 (X5_requests_answered w_no_browser)). reflexivity.
Defined.

(** X6: when [__file__] is absolute the answer to a request does not depend
    on the directory the script was started from. *)
Theorem X6_cwd_independent (w1 w2 : World) (fs : http.FileSystem) (req : http.request) :
  posixpath.isabs (file__ w1) = true ->
  file__ w1 = file__ w2 ->
  platform w1 = platform w2 ->
  script_dir w1 = script_dir w2 /\ Handler w1 fs req = Handler w2 fs req.
Proof.
  intros Habs Hf Hp.
  assert (Hd : script_dir w1 = script_dir w2).
  { unfold script_dir, posixpath.abspath. rewrite <- Hf, Habs. reflexivity. }
  split; [exact Hd|].
  pose proof (Handler_directory w1 fs req) as [H1 _].
  pose proof (Handler_directory w2 fs req) as [H2 _].
  rewrite H1, H2, Hd, Hp. reflexivity.
Qed.

Lemma X6_cwd_independent_witness :
  Handler sample.w_elsewhere sample.disk (sample.get "/index.html")
  = Handler sample.w_interrupted sample.disk (sample.get "/index.html").
Proof.
  apply (X6_cwd_independent sample.w_elsewhere sample.w_interrupted); reflexivity.
Defined.

End lifecycle.

(** ** Normalized paths: [normpath], [dirname] and the serving root *)

Module paths.

Import serve spec more Str_facts.

Lemma split_no_slash (c : ascii) (s : string) :
  Forall (fun w => Str.has_char c w = false) (Str.split c s).
Proof.
  induction s as [|a s IH]; cbn [Str.split].
  - constructor; [reflexivity|constructor].
  - destruct (Ascii.eqb a c) eqn:E.
    + constructor; [reflexivity|exact IH].
    + destruct (Str.split c s) as [|w ws]; inversion IH; subst;
        constructor; cbn; try rewrite E; auto.
Qed.

Lemma In_last (l : list string) (d : string) : l <> [] -> In (last l d) l.
Proof.
  induction l as [|x l IH]; [contradiction|]. intros _.
  destruct l as [|y l]; [left; reflexivity|].
  right. apply IH. discriminate.
Qed.

Lemma Forall_removelast (Q : string -> Prop) (l : list string) :
  Forall Q l -> Forall Q (removelast l).
Proof.
  induction l as [|x l IH]; intro H; [constructor|].
  inversion H; subst. destruct l as [|y l]; [constructor|].
  cbn [removelast]. constructor; [assumption|]. apply IH. assumption.
Qed.

(** Under an absolute path the loop of [normpath] keeps proper components
    only: [..] is never stored, it takes the last stored component off. *)
Lemma normpath_comps_proper (k : nat) (comps acc : list string) :
  k <> 0%nat ->
  Forall (fun w => Str.has_char Str.slash w = false) comps ->
  Forall proper acc ->
  Forall proper (posixpath.normpath_comps k comps acc).
Proof.
  intros Hk. revert acc.
  induction comps as [|c comps IH]; intros acc Hc Hacc; [exact Hacc|].
  inversion Hc as [|? ? Hns Hrest]; subst. cbn [posixpath.normpath_comps].
  destruct (String.eqb_spec c "") as [->|Hne]; [apply IH; assumption|].
  destruct (String.eqb_spec c ".") as [->|Hnd]; [apply IH; assumption|].
  cbn [orb].
  destruct (String.eqb_spec c "..") as [->|Hndd]; cbn [negb orb].
  - apply Nat.eqb_neq in Hk. rewrite Hk. cbn [andb orb].
    destruct acc as [|a acc'] eqn:Ea; [apply IH; [assumption|constructor]|].
    rewrite <- Ea in *. cbn [negb andb].
    replace (Nat.eqb (List.length acc) 0) with false by (rewrite Ea; reflexivity).
    cbn [negb andb].
    destruct (String.eqb_spec (last acc "") "..") as [Hl|Hl].
    + exfalso. assert (Hin : In (last acc "") acc) by (apply In_last; rewrite Ea; discriminate).
      rewrite Forall_forall in Hacc. destruct (Hacc _ Hin) as (_ & _ & Hx & _).
      contradiction.
    + apply IH; [assumption|]. apply Forall_removelast, Hacc.
  - apply IH; [assumption|]. apply Forall_app. split; [exact Hacc|].
    constructor; [|constructor]. repeat split; assumption.
Qed.

(** Proper components go through the loop unchanged. *)
Lemma normpath_comps_fixed (k : nat) (comps acc : list string) :
  Forall proper comps ->
  posixpath.normpath_comps k comps acc = (acc ++ comps)%list.
Proof.
  revert acc. induction comps as [|c comps IH]; intros acc H.
  - rewrite app_nil_r. reflexivity.
  - inversion H as [|? ? (Hne & Hnd & Hndd & _) Hrest]; subst.
    cbn [posixpath.normpath_comps].
    apply String.eqb_neq in Hne, Hnd, Hndd. rewrite Hne, Hnd, Hndd.
    cbn [orb negb]. rewrite IH by assumption. rewrite <- app_assoc. reflexivity.
Qed.

Lemma proper_not_abs (c : string) (rest : string) :
  proper c -> Str.startswith (c ++ rest) "/" = false.
Proof.
  intros (Hne & _ & _ & Hs). destruct c as [|a c]; [contradiction|].
  cbn [Str.has_char] in Hs. cbn [append Str.startswith].
  apply orb_false_iff in Hs. destruct Hs as [Ha _].
  unfold Str.slash in Ha. rewrite Ascii.eqb_sym, Ha. reflexivity.
Qed.

Lemma joined_not_abs (comps : list string) :
  Forall proper comps ->
  Str.startswith (Str.join_with posixpath.sep comps) "/" = false.
Proof.
  intro H. destruct comps as [|c comps]; [reflexivity|].
  inversion H; subst. cbn [Str.join_with].
  destruct comps.
  - rewrite <- (append_empty_r c). apply proper_not_abs. assumption.
  - apply proper_not_abs. assumption.
Qed.

(** Splitting what [join_with] joined gives the components back. *)
Lemma split_join (comps : list string) :
  Forall proper comps -> comps <> [] ->
  Str.split Str.slash (Str.join_with posixpath.sep comps) = comps.
Proof.
  induction comps as [|c comps IH]; intros H Hne; [contradiction|].
  inversion H as [|? ? (_ & _ & _ & Hs) Hrest]; subst.
  destruct comps as [|c' comps].
  - apply split_no_sep, Hs.
  - change (Str.join_with posixpath.sep (c :: c' :: comps))
      with (c ++ String Str.slash (Str.join_with posixpath.sep (c' :: comps))).
    rewrite split_app_sep, (split_no_sep _ _ Hs), IH by (assumption || discriminate).
    reflexivity.
Qed.

Lemma split_joined_skipped (k : nat) (comps : list string) :
  Forall proper comps ->
  posixpath.normpath_comps k (Str.split Str.slash (Str.join_with posixpath.sep comps)) []
  = comps.
Proof.
  intro H. destruct comps as [|c comps].
  - reflexivity.
  - rewrite split_join by (assumption || discriminate).
    apply (normpath_comps_fixed k (c :: comps) []), H.
Qed.

(** [normpath] leaves a normalized absolute path as it is. *)
Lemma normpath_canonical (p : string) :
  canonical p -> posixpath.normpath p = p.
Proof.
  intros (k & comps & Hk & Hp & ->).
  pose proof (joined_not_abs comps Hp) as Hj.
  pose proof (split_joined_skipped k comps Hp) as Hs.
  set (J := Str.join_with posixpath.sep comps) in *.
  unfold posixpath.normpath.
  destruct Hk as [-> | ->]; cbn [posixpath.seps posixpath.sep append String.eqb
                                  Str.startswith Ascii.eqb Bool.eqb andb negb] in *.
  - rewrite Hj. cbn [andb negb Str.split Str.slash Ascii.eqb Bool.eqb
                      posixpath.normpath_comps String.eqb orb].
    fold Str.slash. rewrite Hs. reflexivity.
  - rewrite Hj. cbn [andb negb Str.split Str.slash Ascii.eqb Bool.eqb
                      posixpath.normpath_comps String.eqb orb].
    fold Str.slash. rewrite Hs. reflexivity.
Qed.

(** [normpath] of an absolute path is a normalized absolute path. *)
Lemma normpath_abs_canonical (p : string) :
  posixpath.isabs p = true -> canonical (posixpath.normpath p).
Proof.
  intro H. unfold posixpath.normpath. fold (posixpath.isabs p). rewrite H.
  apply isabs_cons in H. destruct H as (t & ->). cbn [String.eqb].
  set (k := if (Str.startswith (String "/" t) (posixpath.seps 2)
                && negb (Str.startswith (String "/" t) (posixpath.seps 3)))%bool
            then 2%nat else 1%nat).
  assert (Hk : k = 1%nat \/ k = 2%nat) by (unfold k; destruct (_ && _)%bool; auto).
  set (comps := posixpath.normpath_comps k (Str.split Str.slash (String "/" t)) []).
  assert (Hc : Forall proper comps).
  { apply normpath_comps_proper; [destruct Hk; lia|apply split_no_slash|constructor]. }
  replace (String.eqb (posixpath.seps k ++ Str.join_with posixpath.sep comps) "")
    with false by (destruct Hk as [-> | ->]; reflexivity).
  exists k, comps. auto.
Qed.

Lemma upto_last_none (c : ascii) (w : string) :
  Str.has_char c w = false -> Str.upto_last c w = "".
Proof.
  destruct w as [|a w]; [reflexivity|]. intro H. cbn [Str.upto_last]. rewrite H.
  reflexivity.
Qed.

Lemma has_char_app_sep (c : ascii) (a w : string) :
  Str.has_char c (a ++ String c w) = true.
Proof.
  induction a as [|x a IH]; cbn [append Str.has_char].
  - rewrite Ascii.eqb_refl. reflexivity.
  - rewrite IH. apply orb_true_r.
Qed.

(** Up to the last separator: what precedes a final name. *)
Lemma upto_last_app (c : ascii) (a w : string) :
  Str.has_char c w = false ->
  Str.upto_last c (a ++ String c w) = a ++ String c "".
Proof.
  intro Hw. induction a as [|x a IH].
  - cbn [append Str.upto_last Str.has_char]. rewrite Ascii.eqb_refl. cbn [orb].
    rewrite (upto_last_none _ _ Hw). reflexivity.
  - cbn [append]. cbn [Str.upto_last].
    change (Str.has_char c (String x (a ++ String c w)))
      with (Ascii.eqb x c || Str.has_char c (a ++ String c w))%bool.
    rewrite has_char_app_sep, orb_true_r, IH. reflexivity.
Qed.

Lemma join_with_snoc (sep : string) (cs : list string) (c : string) :
  cs <> [] ->
  Str.join_with sep (cs ++ [c]) = Str.join_with sep cs ++ sep ++ c.
Proof.
  induction cs as [|x cs IH]; [contradiction|]. intros _.
  destruct cs as [|y cs]; [reflexivity|].
  change (Str.join_with sep ((x :: y :: cs) ++ [c]))
    with (x ++ sep ++ Str.join_with sep ((y :: cs) ++ [c])).
  rewrite IH by discriminate.
  change (Str.join_with sep (x :: y :: cs))
    with (x ++ sep ++ Str.join_with sep (y :: cs)).
  rewrite !append_assoc. reflexivity.
Qed.

Lemma rstrip_snoc (f : ascii -> bool) (s : string) (c : ascii) :
  f c = true -> Str.rstrip_by f (s ++ String c "") = Str.rstrip_by f s.
Proof.
  intro Hc. induction s as [|x s IH]; cbn [append Str.rstrip_by].
  - rewrite Hc. reflexivity.
  - rewrite IH. reflexivity.
Qed.

Lemma rstrip_kept (f : ascii -> bool) (s : string) (x : ascii) :
  Str.last_char s = Some x -> f x = false -> Str.rstrip_by f s = s.
Proof.
  intros Hl Hx. induction s as [|a s IH]; [reflexivity|].
  cbn [Str.rstrip_by]. destruct s as [|b s].
  - cbn in Hl. injection Hl as ->. cbn. rewrite Hx. reflexivity.
  - rewrite IH by exact Hl. reflexivity.
Qed.

Lemma last_char_in (s : string) (x : ascii) :
  Str.last_char s = Some x -> Str.has_char x s = true.
Proof.
  induction s as [|a s IH]; [discriminate|]. destruct s as [|b s].
  - cbn. intros [= ->]. rewrite Ascii.eqb_refl. reflexivity.
  - intro H.
    change (Str.has_char x (String a (String b s)))
      with (Ascii.eqb a x || Str.has_char x (String b s))%bool.
    rewrite (IH H). apply orb_true_r.
Qed.

Lemma last_char_some (s : string) : s <> "" -> exists x, Str.last_char s = Some x.
Proof.
  induction s as [|a s IH]; [contradiction|]. intros _.
  destruct s as [|b s]; [exists a; reflexivity|].
  destruct IH as (x & Hx); [discriminate|]. exists x. exact Hx.
Qed.

(** A path that ends in a proper component does not end in a separator. *)
Lemma ends_in_name (pre c : string) :
  proper c ->
  exists x, Str.last_char (pre ++ c) = Some x /\ x <> Str.slash.
Proof.
  intros (Hne & _ & _ & Hs).
  destruct (last_char_some c Hne) as (x & Hx).
  exists x. split; [rewrite last_char_app by exact Hne; exact Hx|].
  intros ->. apply last_char_in in Hx. congruence.
Qed.

Lemma all_char_app_l (c : ascii) (a b : string) :
  Str.all_char c (a ++ b) = true -> Str.all_char c a = true.
Proof.
  induction a as [|x a IH]; [reflexivity|]. cbn [append Str.all_char].
  intro H. apply andb_true_iff in H. destruct H as [Hx H].
  rewrite Hx, (IH H). reflexivity.
Qed.

Lemma all_char_last (c : ascii) (s : string) (x : ascii) :
  Str.all_char c s = true -> Str.last_char s = Some x -> x = c.
Proof.
  induction s as [|a s IH]; [discriminate|]. cbn [Str.all_char].
  intro H. apply andb_true_iff in H. destruct H as [Ha H].
  destruct s as [|b s].
  - cbn. intros [= <-]. apply Ascii.eqb_eq, Ha.
  - intro Hl. apply IH; assumption.
Qed.

(** The directory of a normalized absolute path that ends in the name [c]:
    the path without the name and its separator, or the leading separators
    when the name is the only component. *)
Lemma dirname_snoc (k : nat) (cs : list string) (c : string) :
  (k = 1%nat \/ k = 2%nat) ->
  Forall proper cs -> proper c ->
  posixpath.dirname (posixpath.seps k ++ Str.join_with posixpath.sep (cs ++ [c]))
  = posixpath.seps k ++ Str.join_with posixpath.sep cs.
Proof.
  intros Hk Hcs Hc. pose proof Hc as (_ & _ & _ & Hs).
  destruct cs as [|c0 cs'] eqn:Ecs.
  - cbn [app Str.join_with]. rewrite append_empty_r.
    unfold posixpath.dirname.
    pose proof (upto_last_app Str.slash "" c Hs) as H1.
    pose proof (upto_last_app Str.slash "/" c Hs) as H2.
    unfold Str.slash in H1, H2. cbn [append] in H1, H2.
    destruct Hk as [-> | ->]; cbn [posixpath.seps posixpath.sep append];
      unfold Str.slash; [rewrite H1|rewrite H2]; reflexivity.
  - rewrite <- Ecs in *.
    assert (Hne : cs <> []) by (rewrite Ecs; discriminate).
    rewrite (join_with_snoc _ _ _ Hne).
    set (A := posixpath.seps k ++ Str.join_with posixpath.sep cs).
    assert (HA : exists x, Str.last_char A = Some x /\ x <> Str.slash).
    { unfold A. destruct (exists_last Hne) as (cs0 & cl & ->).
      apply Forall_app in Hcs. destruct Hcs as [_ Hcl]. inversion Hcl; subst.
      destruct cs0 as [|c1 cs0].
      - cbn [app Str.join_with]. apply ends_in_name. assumption.
      - rewrite join_with_snoc by discriminate. rewrite <- !append_assoc.
        apply ends_in_name. assumption. }
    destruct HA as (x & Hx & Hxs).
    replace (posixpath.seps k ++ Str.join_with posixpath.sep cs ++ posixpath.sep ++ c)
      with (A ++ String Str.slash c)
      by (unfold A, posixpath.sep; rewrite append_assoc; reflexivity).
    unfold posixpath.dirname. rewrite (upto_last_app _ _ _ Hs).
    assert (Hall : Str.all_char Str.slash (A ++ String Str.slash "") = false).
    { destruct (Str.all_char Str.slash (A ++ String Str.slash "")) eqn:E; [|reflexivity].
      apply all_char_app_l in E. exfalso. apply Hxs.
      apply (all_char_last _ _ _ E Hx). }
    rewrite Hall.
    replace (Str.nonempty (A ++ String Str.slash "")) with true
      by (destruct A; reflexivity).
    cbn [andb negb]. unfold Str.rstrip_char.
    rewrite rstrip_snoc by apply Ascii.eqb_refl.
    apply (rstrip_kept _ _ x Hx). apply Ascii.eqb_neq. congruence.
Qed.

(** The directory of a normalized absolute path is one. *)
Lemma dirname_canonical (p : string) :
  canonical p -> canonical (posixpath.dirname p).
Proof.
  intros (k & comps & Hk & Hp & ->).
  destruct comps as [|c0 comps'] eqn:E.
  - exists k, []. split; [exact Hk|]. split; [constructor|].
    destruct Hk as [-> | ->]; reflexivity.
  - rewrite <- E in *.
    assert (Hne : comps <> []) by (rewrite E; discriminate).
    destruct (exists_last Hne) as (cs & c & ->).
    apply Forall_app in Hp. destruct Hp as [Hcs Hc]. inversion Hc; subst.
    rewrite dirname_snoc by assumption.
    exists k, cs. auto.
Qed.

(** Joining the directory of a normalized absolute path with its last
    component gives the path back. *)
Lemma join_dirname (k : nat) (cs : list string) (c : string) :
  (k = 1%nat \/ k = 2%nat) ->
  Forall proper cs -> proper c ->
  let p := posixpath.seps k ++ Str.join_with posixpath.sep (cs ++ [c]) in
  posixpath.join (posixpath.dirname p) c = p.
Proof.
  intros Hk Hcs Hc p. unfold p. rewrite dirname_snoc by assumption.
  pose proof Hc as (_ & _ & _ & Hs).
  rewrite (join_name _ _ Hs).
  destruct cs as [|c0 cs'] eqn:Ecs.
  - cbn [app Str.join_with]. rewrite append_empty_r.
    destruct Hk as [-> | ->]; reflexivity.
  - rewrite <- Ecs in *.
    assert (Hne : cs <> []) by (rewrite Ecs; discriminate).
    rewrite (join_with_snoc _ _ _ Hne).
    set (A := posixpath.seps k ++ Str.join_with posixpath.sep cs).
    assert (HA : exists x, Str.last_char A = Some x /\ x <> Str.slash).
    { unfold A. destruct (exists_last Hne) as (cs0 & cl & ->).
      apply Forall_app in Hcs. destruct Hcs as [_ Hcl]. inversion Hcl; subst.
      destruct cs0 as [|c1 cs0].
      - cbn [app Str.join_with]. apply ends_in_name. assumption.
      - rewrite join_with_snoc by discriminate. rewrite <- !append_assoc.
        apply ends_in_name. assumption. }
    destruct HA as (x & Hx & Hxs).
    unfold posixpath.join, posixpath.sep. cbn [Str.startswith].
    assert (Hend : Str.endswith A "/" = false).
    { destruct (Str.endswith A "/") eqn:E; [|reflexivity].
      apply endswith_last in E. rewrite Hx in E. injection E as ->.
      exfalso. apply Hxs. reflexivity. }
    rewrite Hend.
    replace (Str.nonempty A) with true
      by (unfold A; destruct Hk as [-> | ->]; reflexivity).
    cbn [negb orb]. unfold A, posixpath.sep. rewrite !append_assoc. reflexivity.
Qed.

Lemma abspath_canonical (cwd f : string) :
  posixpath.isabs cwd = true -> canonical (posixpath.abspath cwd f).
Proof.
  intro H. unfold posixpath.abspath. destruct (posixpath.isabs f) eqn:Hf.
  - apply normpath_abs_canonical, Hf.
  - apply normpath_abs_canonical, join_isabs, H.
Qed.

Lemma canonical_isabs (p : string) : canonical p -> posixpath.isabs p = true.
Proof.
  intros (k & comps & [-> | ->] & _ & ->); reflexivity.
Qed.

(** No component of a normalized absolute path is [.] or [..]. *)
Lemma canonical_components (p : string) :
  canonical p ->
  forall c, In c (Str.split Str.slash p) -> c = "" \/ proper c.
Proof.
  intros (k & comps & Hk & Hp & ->) c Hin.
  assert (Hj : forall c, In c (Str.split Str.slash (Str.join_with posixpath.sep comps)) ->
                         c = "" \/ proper c).
  { intros c' Hc'. destruct comps as [|c0 comps].
    - cbn in Hc'. destruct Hc' as [<-|[]]. left. reflexivity.
    - rewrite split_join in Hc' by (assumption || discriminate).
      right. rewrite Forall_forall in Hp. apply Hp, Hc'. }
  destruct Hk as [-> | ->];
    cbn [posixpath.seps posixpath.sep append Str.split Str.slash] in Hin;
    rewrite ?Ascii.eqb_refl in Hin.
  - destruct Hin as [<-|Hin]; [left; reflexivity|apply Hj, Hin].
  - destruct Hin as [<-|[<-|Hin]]; [left; reflexivity|left; reflexivity|apply Hj, Hin].
Qed.

(** X7: with an absolute working directory [os.path.abspath] yields a
    normalized absolute path, whatever the argument: no component of it is
    [.] or [..]; applying [abspath] again, from any directory, or
    [normpath], changes nothing. *)
Theorem X7_abspath_normalized (cwd f : string) :
  posixpath.isabs cwd = true ->
  canonical (posixpath.abspath cwd f)
  /\ (forall c, In c (Str.split Str.slash (posixpath.abspath cwd f)) ->
                c <> "." /\ c <> "..")
  /\ posixpath.normpath (posixpath.abspath cwd f) = posixpath.abspath cwd f
  /\ (forall cwd', posixpath.abspath cwd' (posixpath.abspath cwd f)
                   = posixpath.abspath cwd f).
Proof.
  intro H. pose proof (abspath_canonical cwd f H) as Hc.
  split; [exact Hc|]. split; [|split].
  - intros c Hin. destruct (canonical_components _ Hc c Hin) as [->|(_ & Hd & Hdd & _)].
    + split; discriminate.
    + split; assumption.
  - apply normpath_canonical, Hc.
  - intro cwd'. unfold posixpath.abspath at 1.
    rewrite (canonical_isabs _ Hc). apply normpath_canonical, Hc.
Qed.

Lemma X7_abspath_normalized_witness :
  posixpath.abspath "/tmp" (posixpath.abspath "/home/dev" "CodeRunner/../CodeRunner/./serve.py")
  = posixpath.abspath "/home/dev" "CodeRunner/../CodeRunner/./serve.py".
Proof.
  apply (X7_abspath_normalized "/home/dev" "CodeRunner/../CodeRunner/./serve.py").
  reflexivity.
Defined.

(** X8: in a run started from an absolute working directory the serving
    root, [dirname(abspath(__file__))], is a normalized absolute path: no
    component of it is [.] or [..], and neither [normpath] nor [abspath]
    changes it. *)
Theorem X8_root_normalized (w : World) :
  posixpath.isabs (getcwd w) = true ->
  canonical (script_dir w)
  /\ (forall c, In c (Str.split Str.slash (script_dir w)) -> c <> "." /\ c <> "..")
  /\ posixpath.normpath (script_dir w) = script_dir w
  /\ (forall cwd', posixpath.abspath cwd' (script_dir w) = script_dir w).
Proof.
  intro H.
  assert (Hc : canonical (script_dir w))
    by (apply dirname_canonical, abspath_canonical, H).
  split; [exact Hc|]. split; [|split].
  - intros c Hin. destruct (canonical_components _ Hc c Hin) as [->|(_ & Hd & Hdd & _)].
    + split; discriminate.
    + split; assumption.
  - apply normpath_canonical, Hc.
  - intro cwd'. unfold posixpath.abspath.
    rewrite (canonical_isabs _ Hc). apply normpath_canonical, Hc.
Qed.

Lemma X8_root_normalized_witness :
  posixpath.normpath (script_dir w_relative) = script_dir w_relative
  /\ script_dir w_relative = "/home/dev/CodeRunner".
Proof.
  split; [|reflexivity].
  apply (X8_root_normalized w_relative). reflexivity.
Defined.

(** X9: in a run started from an absolute working directory the script's
    own absolute path is the serving root joined with one proper file name,
    so the script lies inside the root it serves; the exception is a
    [__file__] that normalizes to the root of the file system. *)
Theorem X9_script_in_root (w : World) :
  posixpath.isabs (getcwd w) = true ->
  let p := posixpath.abspath (getcwd w) (file__ w) in
  (p = "/" \/ p = "//")
  \/ exists name,
       proper name
       /\ posixpath.join (script_dir w) name = p
       /\ within (script_dir w) p.
Proof.
  intros H p. destruct (abspath_canonical (getcwd w) (file__ w) H)
    as (k & comps & Hk & Hp & Hpe).
  fold p in Hpe. destruct comps as [|c0 comps'] eqn:E.
  - left. rewrite Hpe. destruct Hk as [-> | ->]; [left|right]; reflexivity.
  - right. rewrite <- E in *.
    assert (Hne : comps <> []) by (rewrite E; discriminate).
    destruct (exists_last Hne) as (cs & c & ->).
    apply Forall_app in Hp. destruct Hp as [Hcs Hc]. inversion Hc as [|? ? Hpc _]; subst.
    exists c. split; [exact Hpc|].
    assert (Hj : posixpath.join (script_dir w) c = p).
    { unfold script_dir. fold p. rewrite Hpe. apply join_dirname; assumption. }
    split; [exact Hj|]. rewrite <- Hj.
    apply handler.within_join; [left; reflexivity|].
    destruct Hpc as (_ & _ & Hdd & Hs). split; assumption.
Qed.

Lemma X9_script_in_root_witness :
  let p := posixpath.abspath (getcwd w_relative) (file__ w_relative) in
  (p = "/" \/ p = "//")
  \/ exists name,
       proper name
       /\ posixpath.join (script_dir w_relative) name = p
       /\ within (script_dir w_relative) p.
Proof.
  apply (X9_script_in_root w_relative). reflexivity.
Defined.

End paths.

(** ** The serving root and the resolution of requests *)

Module root.

Import serve spec more Str_facts paths.

Lemma properb_spec (c : string) : properb c = true <-> proper c.
Proof.
  unfold properb, proper, Str.nonempty. split.
  - intro H. repeat (apply andb_true_iff in H; destruct H as [H ?]).
    repeat match goal with
           | H : negb _ = true |- _ => apply negb_true_iff in H
           end.
    repeat split; try (apply String.eqb_neq; assumption); assumption.
  - intros (H1 & H2 & H3 & H4). apply String.eqb_neq in H1, H2, H3.
    rewrite H1, H2, H3, H4. reflexivity.
Qed.

Lemma dirname_noslash (w : string) :
  Str.has_char Str.slash w = false -> posixpath.dirname w = "".
Proof.
  intro H. unfold posixpath.dirname. rewrite (upto_last_none _ _ H). reflexivity.
Qed.

(** The directory and its separator. *)
Lemma join_sep (d : string) :
  d <> "" -> posixpath.join d "" = (if Str.endswith d "/" then d else d ++ "/").
Proof.
  intro Hd. unfold posixpath.join, posixpath.sep. cbn [Str.startswith].
  replace (Str.nonempty d) with true by (destruct d; [contradiction|reflexivity]).
  cbn [negb orb]. destruct (Str.endswith d "/"); [apply append_empty_r|reflexivity].
Qed.

Lemma joined_ends_in_name (pre : string) (cs : list string) :
  Forall proper cs -> cs <> [] ->
  exists x, Str.last_char (pre ++ Str.join_with "/" cs) = Some x /\ x <> Str.slash.
Proof.
  intros Hcs Hne. destruct (exists_last Hne) as (cs0 & cl & ->).
  apply Forall_app in Hcs. destruct Hcs as [_ Hcl]. inversion Hcl; subst.
  destruct cs0 as [|c1 cs0].
  - cbn [app Str.join_with]. apply ends_in_name. assumption.
  - rewrite join_with_snoc by discriminate. rewrite <- !append_assoc.
    apply ends_in_name. assumption.
Qed.

(** One more name below a directory. *)
Lemma join_below (d : string) (acc : list string) (c : string) :
  d <> "" -> Forall proper acc -> proper c ->
  posixpath.join (below d acc) c = below d (acc ++ [c]).
Proof.
  intros Hd Hacc Hc. pose proof Hc as (_ & _ & _ & Hs).
  rewrite (join_name _ _ Hs).
  destruct acc as [|a acc'] eqn:E.
  - cbn [below app Str.join_with]. rewrite (join_sep d Hd). reflexivity.
  - rewrite <- E in *.
    assert (Hne : acc <> []) by (rewrite E; discriminate).
    replace (below d acc)
      with ((if Str.endswith d "/" then d else d ++ "/") ++ Str.join_with "/" acc)
      by (rewrite E; reflexivity).
    replace (below d (acc ++ [c]))
      with ((if Str.endswith d "/" then d else d ++ "/") ++ Str.join_with "/" (acc ++ [c]))
      by (rewrite E; reflexivity).
    set (S := if Str.endswith d "/" then d else d ++ "/").
    destruct (joined_ends_in_name S acc Hacc Hne) as (x & Hx & Hxs).
    set (A := S ++ Str.join_with "/" acc) in *.
    assert (HA : A <> "") by (intros HA; rewrite HA in Hx; discriminate).
    rewrite (join_sep A HA).
    assert (Hend : Str.endswith A "/" = false).
    { destruct (Str.endswith A "/") eqn:Ee; [|reflexivity].
      apply endswith_last in Ee. rewrite Hx in Ee. injection Ee as ->.
      exfalso. apply Hxs. reflexivity. }
    rewrite Hend. unfold A. rewrite (join_with_snoc _ _ _ Hne), !append_assoc.
    reflexivity.
Qed.

(** The loop of [translate_path]: the proper words, in order, below the
    directory. *)
Lemma fold_translate_below (d : string) (words acc : list string) :
  d <> "" ->
  Forall (fun w => Str.has_char Str.slash w = false) words ->
  Forall proper acc ->
  fold_left http.translate_step (filter Str.nonempty words) (below d acc)
  = below d (acc ++ filter properb words).
Proof.
  intros Hd Hw. revert acc.
  induction Hw as [|w words Hs Hw IH]; intros acc Hacc.
  - cbn. rewrite app_nil_r. reflexivity.
  - cbn [filter]. unfold properb at 1. rewrite Hs. cbn [negb].
    rewrite andb_true_r.
    destruct (Str.nonempty w) eqn:Hn; cbn [andb]; [|apply IH, Hacc].
    cbn [fold_left]. unfold http.translate_step.
    rewrite (dirname_noslash w Hs). cbn [Str.nonempty String.eqb negb orb].
    destruct (String.eqb_spec w ".") as [H1|H1]; cbn [negb andb orb];
      [apply IH, Hacc|].
    destruct (String.eqb_spec w "..") as [H2|H2]; cbn [negb andb orb];
      [apply IH, Hacc|].
    assert (Hp : proper w).
    { repeat split; try assumption. intros ->. discriminate. }
    rewrite (join_below d acc w Hd Hacc Hp), IH.
    + rewrite <- app_assoc. reflexivity.
    + apply Forall_app. split; [exact Hacc|]. constructor; [exact Hp|constructor].
Qed.

(** [translate_path] resolves a request path against the directory: the
    names the path asks for, below the directory. *)
Lemma translate_path_resolution (P : http.Platform) (d path : string) :
  d <> "" -> http.translate_path P d path = resolution P d path.
Proof.
  intro Hd. unfold http.translate_path, resolution, request_names, asks_directory.
  rewrite (fold_translate_below d _ [] Hd (split_no_slash _ _) (Forall_nil _)).
  cbn [app]. destruct (Str.endswith _ "/"); [reflexivity|].
  rewrite append_empty_r. reflexivity.
Qed.

Lemma request_names_proper (P : http.Platform) (path : string) :
  Forall proper (request_names P path).
Proof.
  unfold request_names. apply Forall_forall. intros c Hin.
  apply filter_In in Hin. apply properb_spec, Hin.
Qed.

(** What [send_head] opens or lists: the resolved path, or an index file
    in it. *)
Lemma send_head_opens (P : http.Platform) (fs : http.FileSystem)
    (d : string) (req : http.request) :
  let r := http.translate_path P d (http.path req) in
  Forall (fun p => p = r \/ p = posixpath.join r "index.html"
                   \/ p = posixpath.join r "index.htm")
    (http.accessed (http.send_head P fs d req)).
Proof.
  intro r.
  assert (Hfile : forall p,
            (p = r \/ p = posixpath.join r "index.html" \/ p = posixpath.join r "index.htm") ->
            Forall (fun p => p = r \/ p = posixpath.join r "index.html"
                             \/ p = posixpath.join r "index.htm")
              (http.accessed (http.send_file P fs req p))).
  { intros p Hp. unfold http.send_file.
    destruct (Str.endswith p "/"); [apply Forall_nil|].
    destruct (http.open_rb fs p) as [f|];
      [destruct (http.not_modified P req f)|];
      (apply Forall_cons; [exact Hp|apply Forall_nil]). }
  unfold http.send_head. fold r.
  destruct (http.isdir fs r); [|apply Hfile; auto].
  destruct (negb (Str.endswith _ "/")); [apply Forall_nil|].
  destruct (http.isfile fs _); [apply Hfile; auto|].
  destruct (http.isfile fs _); [apply Hfile; auto|].
  unfold http.list_directory.
  destruct (http.listdir fs r); (apply Forall_cons; [auto|apply Forall_nil]).
Qed.

Lemma handle_opens (P : http.Platform) (fs : http.FileSystem)
    (d : string) (req : http.request) :
  let r := http.translate_path P d (http.path req) in
  Forall (fun p => p = r \/ p = posixpath.join r "index.html"
                   \/ p = posixpath.join r "index.htm")
    (http.h_accessed (http.handle_one_request P fs d req)).
Proof.
  intro r. pose proof (send_head_opens P fs d req) as H. cbn zeta in H. fold r in H.
  unfold http.handle_one_request, http.do_GET, http.do_HEAD.
  destruct (String.eqb (http.command req) "GET").
  - destruct (http.to_copy _); exact H.
  - destruct (String.eqb (http.command req) "HEAD"); [exact H|apply Forall_nil].
Qed.

(** The script's absolute path: the root itself when [__file__] normalizes
    to the root of the file system, otherwise the root, a separator unless
    it ends in one, and the name of the script. *)
Lemma script_below_root (w : World) :
  posixpath.isabs (getcwd w) = true ->
  posixpath.abspath (getcwd w) (file__ w) = script_dir w
  \/ exists name,
       proper name
       /\ posixpath.abspath (getcwd w) (file__ w)
          = (if Str.endswith (script_dir w) "/" then script_dir w else script_dir w ++ "/")
            ++ name.
Proof.
  intro H. unfold script_dir.
  destruct (abspath_canonical (getcwd w) (file__ w) H) as (k & comps & Hk & Hp & Hpe).
  rewrite Hpe. destruct comps as [|c0 comps'] eqn:E.
  - left. destruct Hk as [-> | ->]; reflexivity.
  - right. rewrite <- E in *.
    assert (Hne : comps <> []) by (rewrite E; discriminate).
    destruct (exists_last Hne) as (cs & c & ->).
    apply Forall_app in Hp. destruct Hp as [Hcs Hc]. inversion Hc as [|? ? Hpc _]; subst.
    exists c. split; [exact Hpc|].
    pose proof (join_dirname k cs c Hk Hcs Hpc) as Hj. cbn zeta in Hj.
    rewrite <- Hj at 1. pose proof Hpc as (_ & _ & _ & Hs).
    rewrite (join_name _ _ Hs), join_sep; [reflexivity|].
    rewrite dirname_snoc by assumption.
    destruct Hk as [-> | ->]; cbn; discriminate.
Qed.

(** C4: in a run started from an absolute working directory every request
    is answered by a handler whose root is [dirname(abspath(__file__))], the
    same for all of them: a normalized absolute directory that holds the
    script, its path being the root, a separator and the script's name; and
    every request is resolved against that root: the path it is translated
    to is the root followed by the proper names of the request path, and
    what the handler opens or lists is that path or an index file in it. *)
Theorem C4_handler_root (w : World) (req : http.request) (h : http.handled) :
  posixpath.isabs (getcwd w) = true ->
  In (ev_request req h) (trace w) ->
  let root := posixpath.dirname (posixpath.abspath (getcwd w) (file__ w)) in
  let r := resolution (platform w) root (http.path req) in
  canonical root
  /\ (posixpath.abspath (getcwd w) (file__ w) = root
      \/ exists name,
           proper name
           /\ posixpath.abspath (getcwd w) (file__ w)
              = (if Str.endswith root "/" then root else root ++ "/") ++ name)
  /\ http.h_directory h = root
  /\ http.translate_path (platform w) root (http.path req) = r
  /\ Forall proper (request_names (platform w) (http.path req))
  /\ Forall (fun p => p = r \/ p = posixpath.join r "index.html"
                      \/ p = posixpath.join r "index.htm")
       (http.h_accessed h)
  /\ exists fs, In (fs, req) (arrivals w) /\ h = Handler w fs req.
Proof.
  intros Habs Hin root r. fold (script_dir w) in root.
  assert (Hc : canonical root) by (apply dirname_canonical, abspath_canonical, Habs).
  assert (Hne : root <> "").
  { intro He. apply canonical_isabs in Hc. rewrite He in Hc. discriminate. }
  assert (Hr : http.translate_path (platform w) root (http.path req) = r)
    by (apply translate_path_resolution, Hne).
  destruct (launcher.request_handler w req h Hin) as (Hd & fs & Hfs & Hh).
  split; [exact Hc|]. split; [apply script_below_root, Habs|].
  split; [exact Hd|]. split; [exact Hr|].
  split; [apply request_names_proper|]. split.
  - rewrite Hh, <- Hr. apply handle_opens.
  - exists fs. split; [exact Hfs|]. rewrite Hh.
    symmetry. apply (launcher.Handler_directory w fs req).
Qed.

Lemma C4_handler_root_witness :
  http.h_directory (Handler sample.w_elsewhere sample.disk (sample.get "/index.html"))
  = "/home/dev/CodeRunner"
  /\ http.h_accessed (Handler sample.w_elsewhere sample.disk (sample.get "/index.html"))
     = ["/home/dev/CodeRunner/index.html"]
  /\ resolution sample.P "/home/dev/CodeRunner" "/index.html"
     = "/home/dev/CodeRunner/index.html".
Proof.
  destruct (C4_handler_root sample.w_elsewhere (sample.get "/index.html")
              (Handler sample.w_elsewhere sample.disk (sample.get "/index.html")))
    as (_ & _ & Hd & _ & _ & _ & _).
  - reflexivity.
  - vm_compute. auto 10.
  - split; [exact Hd|]. split; reflexivity.
Defined.

End root.

(** ** The responses of the handler *)

Module responses.

Import serve spec more Str_facts.

Lemma before_app_sep (c : ascii) (p q : string) :
  Str.before c (p ++ String c q) = Str.before c p.
Proof.
  induction p as [|x p IH]; cbn [append Str.before].
  - rewrite Ascii.eqb_refl. reflexivity.
  - destruct (Ascii.eqb x c); [reflexivity|]. rewrite IH. reflexivity.
Qed.

Lemma before_before_app (a b : ascii) (p q : string) :
  Str.before a (Str.before b (p ++ String a q)) = Str.before a (Str.before b p).
Proof.
  induction p as [|x p IH]; cbn [append Str.before].
  - destruct (Ascii.eqb a b); cbn [Str.before]; [reflexivity|].
    rewrite Ascii.eqb_refl. reflexivity.
  - destruct (Ascii.eqb x b); [reflexivity|]. cbn [Str.before].
    destruct (Ascii.eqb x a); [reflexivity|]. rewrite IH. reflexivity.
Qed.

(** X10: the file a request is resolved to does not depend on its query
    string or its fragment. *)
Theorem X10_query_ignored (P : http.Platform) (directory p q : string) :
  http.translate_path P directory (p ++ "?" ++ q) = http.translate_path P directory p
  /\ http.translate_path P directory (p ++ "#" ++ q) = http.translate_path P directory p.
Proof.
  unfold http.translate_path. cbn [append].
  rewrite before_app_sep, before_before_app. split; reflexivity.
Qed.

Lemma cmd_get (req : http.request) :
  String.eqb (http.command req) "GET" = true <-> http.command req = "GET".
Proof. apply String.eqb_eq. Qed.




(** X12: a response with status 304 is sent only to a request that carries
    an [If-Modified-Since] header and no [If-None-Match] header. *)
Theorem X12_not_modified_only_conditional (w : World) (fs : http.FileSystem)
    (req : http.request) :
  http.status (http.h_response (Handler w fs req)) = 304 ->
  http.has_header (http.headers req) "If-Modified-Since" = true
  /\ http.has_header (http.headers req) "If-None-Match" = false
  /\ http.body (http.h_response (Handler w fs req)) = "".
Proof.
  unfold Handler, http.SimpleHTTPRequestHandler. fold (script_dir w).
  set (P := platform w). set (d := script_dir w).
  assert (Hfile : forall p,
            http.status (http.written (http.send_file P fs req p)) = 304 ->
            (http.has_header (http.headers req) "If-Modified-Since" = true
             /\ http.has_header (http.headers req) "If-None-Match" = false)
            /\ http.body (http.written (http.send_file P fs req p)) = ""
            /\ http.to_copy (http.send_file P fs req p) = None).
  { intro p. unfold http.send_file.
    destruct (Str.endswith p "/"); [cbn; discriminate|].
    destruct (http.open_rb fs p) as [f|]; [|cbn; discriminate].
    destruct (http.not_modified P req f) eqn:E; [|cbn; discriminate].
    intros _. split; [|split; reflexivity].
    unfold http.not_modified in E.
    destruct (http.has_header (http.headers req) "If-Modified-Since"); [|discriminate].
    destruct (http.has_header (http.headers req) "If-None-Match"); [discriminate|].
    split; reflexivity. }
  assert (Hhead :
            http.status (http.written (http.send_head P fs d req)) = 304 ->
            (http.has_header (http.headers req) "If-Modified-Since" = true
             /\ http.has_header (http.headers req) "If-None-Match" = false)
            /\ http.body (http.written (http.send_head P fs d req)) = ""
            /\ http.to_copy (http.send_head P fs d req) = None).
  { unfold http.send_head.
    destruct (http.isdir fs _); [|apply Hfile].
    destruct (negb (Str.endswith _ "/")); [cbn; discriminate|].
    destruct (http.isfile fs _); [apply Hfile|].
    destruct (http.isfile fs _); [apply Hfile|].
    unfold http.list_directory. destruct (http.listdir fs _); cbn; discriminate. }
  unfold http.handle_one_request, http.do_GET, http.do_HEAD.
  destruct (String.eqb (http.command req) "GET").
  - destruct (http.to_copy (http.send_head P fs d req)) eqn:Ec; cbn [http.h_response http.status].
    + intro H. destruct (Hhead H) as (_ & _ & Hn). congruence.
    + intro H. destruct (Hhead H) as ((H1 & H2) & Hb & _). auto.
  - destruct (String.eqb (http.command req) "HEAD"); cbn [http.h_response].
    + intro H. destruct (Hhead H) as ((H1 & H2) & Hb & _). auto.
    + cbn. discriminate.
Qed.

Lemma X12_not_modified_only_conditional_witness :
  http.has_header (http.headers (sample.get_cached "/index.html")) "If-Modified-Since" = true
  /\ http.has_header (http.headers (sample.get_cached "/index.html")) "If-None-Match" = false
  /\ http.body (http.h_response
                  (Handler sample.w_elsewhere sample.disk (sample.get_cached "/index.html")))
     = "".
Proof.
  apply (X12_not_modified_only_conditional sample.w_elsewhere sample.disk
           (sample.get_cached "/index.html")).
  reflexivity.
Defined.


(** The [Content-Length] that [send_head] announces: the size [os.fstat]
    reports for a file, the length of a listing or an error page, zero for a
    redirect. It is the length of what is sent when the size reported for
    the file is the number of bytes read from it. *)
Lemma send_head_length (P : http.Platform) (fs : http.FileSystem)
    (directory : string) (req : http.request) (v : string) :
  http.command req = "GET" ->
  (forall p f, http.open_rb fs p = Some f ->
               http.st_size f = Z.of_nat (String.length (http.content f))) ->
  let h := http.send_head P fs directory req in
  content_length (http.written h) = Some v ->
  v = Str.of_nat
        (String.length
           (http.body (http.written h)
            ++ match http.to_copy h with Some bytes => bytes | None => "" end)).
Proof.
  intros Hc Hsize.
  assert (Herr : forall msg,
            content_length (http.send_error P (http.command req) http.NOT_FOUND msg) = Some v ->
            v = Str.of_nat
                  (String.length
                     (http.body (http.send_error P (http.command req) http.NOT_FOUND msg) ++ ""))).
  { intro msg. rewrite Hc. unfold content_length, http.send_error.
    cbn. rewrite append_empty_r. congruence. }
  assert (Hfile : forall p,
            let h := http.send_file P fs req p in
            content_length (http.written h) = Some v ->
            v = Str.of_nat
                  (String.length
                     (http.body (http.written h)
                      ++ match http.to_copy h with Some bytes => bytes | None => "" end))).
  { intro p. unfold http.send_file.
    destruct (Str.endswith p "/"); [apply Herr|].
    destruct (http.open_rb fs p) as [f|] eqn:Ho; [|apply Herr].
    destruct (http.not_modified P req f); cbn; [discriminate|].
    rewrite (Hsize p f Ho). unfold Str.of_nat. congruence. }
  unfold http.send_head.
  destruct (http.isdir fs _); [|apply Hfile].
  destruct (negb (Str.endswith _ "/")); [cbn; congruence|].
  destruct (http.isfile fs _); [apply Hfile|].
  destruct (http.isfile fs _); [apply Hfile|].
  unfold http.list_directory. destruct (http.listdir fs _); [cbn; congruence|apply Herr].
Qed.

(** X13: on a disk where the size [os.fstat] reports for a file is the
    number of bytes read from it, whenever the answer to a parsed GET
    carries a [Content-Length] header its value is the length of the body
    sent, in decimal: for a file, a directory listing, an error page and the
    empty body of a redirect. For a file the header is the reported size,
    whatever is read. *)
Theorem X13_content_length (w : World) (fs : http.FileSystem) (req : http.request)
    (v : string) :
  http.command req = "GET" ->
  (forall f,
     resolves_to_file fs (resolved w req) f ->
     Str.endswith (resolved w req) "/" = false ->
     http.status (http.h_response (Handler w fs req)) = 200 ->
     content_length (http.h_response (Handler w fs req))
     = Some (Str.of_int (http.st_size f)))
  /\ ((forall p f, http.open_rb fs p = Some f ->
                   http.st_size f = Z.of_nat (String.length (http.content f))) ->
      content_length (http.h_response (Handler w fs req)) = Some v ->
      v = Str.of_nat (String.length (http.body (http.h_response (Handler w fs req))))).
Proof.
  intros Hc. unfold resolved, Handler, http.SimpleHTTPRequestHandler, http.handle_one_request.
  fold (script_dir w). rewrite Hc. cbn [String.eqb Ascii.eqb Bool.eqb]. split.
  - intros f (Hd & Ho) Hsl. unfold http.do_GET, http.send_head. rewrite Hd.
    unfold http.send_file. rewrite Hsl, Ho.
    destruct (http.not_modified (platform w) req f); cbn; [discriminate|reflexivity].
  - intros Hsize.
    pose proof (send_head_length (platform w) fs (script_dir w) req v Hc Hsize) as H.
    cbn zeta in H. unfold http.do_GET.
    destruct (http.to_copy _); cbn [http.h_response http.body http.sent_headers] in *.
    + exact H.
    + rewrite append_empty_r in H. exact H.
Qed.

Lemma X13_content_length_witness :
  "40" = Str.of_nat
           (String.length
              (http.body (http.h_response
                            (Handler sample.w_elsewhere sample.disk (sample.get "/index.html"))))).
Proof.
  apply (proj2 (X13_content_length sample.w_elsewhere sample.disk
                  (sample.get "/index.html") "40" eq_refl)).
  - intros p f H. cbn in H.
    destruct (String.eqb p "/home/dev/CodeRunner/index.html"); [|discriminate].
    injection H as <-. reflexivity.
  - reflexivity.
Defined.

Lemma send_head_head (P : http.Platform) (fs : http.FileSystem)
    (directory : string) (req : http.request) :
  http.command req = "GET" ->
  let g := http.send_head P fs directory req in
  let h := http.send_head P fs directory (with_command "HEAD" req) in
  http.status (http.written h) = http.status (http.written g)
  /\ http.sent_headers (http.written h) = http.sent_headers (http.written g)
  /\ http.body (http.written h) = ""
  /\ http.accessed h = http.accessed g.
Proof.
  intro Hc.
  assert (Herr : forall msg,
            let g := http.send_error P (http.command req) http.NOT_FOUND msg in
            let h := http.send_error P "HEAD" http.NOT_FOUND msg in
            http.status h = http.status g
            /\ http.sent_headers h = http.sent_headers g
            /\ http.body h = "").
  { intro msg. rewrite Hc. cbn. auto. }
  assert (Hfile : forall p,
            let g := http.send_file P fs req p in
            let h := http.send_file P fs (with_command "HEAD" req) p in
            http.status (http.written h) = http.status (http.written g)
            /\ http.sent_headers (http.written h) = http.sent_headers (http.written g)
            /\ http.body (http.written h) = ""
            /\ http.accessed h = http.accessed g).
  { intro p. unfold http.send_file.
    change (http.not_modified P (with_command "HEAD" req))
      with (http.not_modified P req).
    destruct (Str.endswith p "/").
    { destruct (Herr "File not found") as (H1 & H2 & H3). cbn zeta.
      cbn [http.written http.accessed with_command http.command]. auto. }
    destruct (http.open_rb fs p) as [f|].
    - destruct (http.not_modified P req f); cbn; auto.
    - destruct (Herr "File not found") as (H1 & H2 & H3). cbn zeta.
      cbn [http.written http.accessed with_command http.command]. auto. }
  unfold http.send_head. cbn [with_command http.path].
  destruct (http.isdir fs _); [|apply Hfile].
  destruct (negb (Str.endswith _ "/")); [cbn; auto|].
  destruct (http.isfile fs _); [apply Hfile|].
  destruct (http.isfile fs _); [apply Hfile|].
  unfold http.list_directory. cbn [with_command http.path http.command].
  destruct (http.listdir fs _); [cbn; auto|].
  destruct (Herr "No permission to list directory") as (H1 & H2 & H3). cbn zeta.
  cbn [http.written http.accessed]. auto.
Qed.

(** X14: the answer to a HEAD is the answer to the same request sent as a
    GET without its body: same status, same headers (so the
    [Content-Length] of the body that is not sent), same paths read. *)
Theorem X14_head_mirrors_get (w : World) (fs : http.FileSystem) (req : http.request) :
  http.command req = "GET" ->
  let g := Handler w fs req in
  let h := Handler w fs (with_command "HEAD" req) in
  http.status (http.h_response h) = http.status (http.h_response g)
  /\ http.sent_headers (http.h_response h) = http.sent_headers (http.h_response g)
  /\ http.body (http.h_response h) = ""
  /\ http.h_accessed h = http.h_accessed g.
Proof.
  intro Hc. unfold Handler, http.SimpleHTTPRequestHandler, http.handle_one_request.
  rewrite Hc. cbn [with_command http.command String.eqb Ascii.eqb Bool.eqb].
  pose proof (send_head_head (platform w) fs
                (posixpath.dirname (posixpath.abspath (getcwd w) (file__ w))) req Hc) as H.
  cbn zeta in H. destruct H as (H1 & H2 & H3 & H4).
  unfold http.do_GET, http.do_HEAD. cbn zeta.
  destruct (http.to_copy _); cbn [http.h_response http.h_accessed http.status
                                   http.sent_headers http.body]; auto.
Qed.

Lemma X14_head_mirrors_get_witness :
  http.h_response (Handler sample.w_elsewhere sample.disk (head_ "/index.html"))
  = http.mk_response 200
      [("Content-type", "text/html");
       ("Content-Length", "40");
       ("Last-Modified", "Mon, 01 Dec 2025 00:00:00 GMT")]
      ""
  /\ http.body (http.h_response (Handler sample.w_elsewhere sample.disk (head_ "/index.html")))
     = "".
Proof.
  split; [reflexivity|].
  apply (X14_head_mirrors_get sample.w_elsewhere sample.disk (sample.get "/index.html")).
  reflexivity.
Defined.

End responses.
